(** * Trill users API: a model of [backend/src/usersAPI/main.go]

    The Lambda handler of the users API reads or updates the profile of the
    caller.  It is glue over three libraries: gorm over MySQL (the profile
    store), the Cognito identity provider client, and [encoding/json].  The
    functions of [main.go] ([connectDB], [initClient], [handler], [read],
    [update]) are embedded below as functions in a small state monad over a
    [World] that holds the store, the identity provider and a log of the
    calls made to them; a Go panic is an outcome of its own.

    The library calls the handler makes are modelled next to it:
    [strings.Split], [json.Unmarshal] into the [User] struct (scanner,
    field matching, string unquoting), [json.Marshal] of a map of strings
    and [json.HTMLEscape].  Go strings are byte strings; they are Rocq
    [string]s, whose characters are bytes. *)

From Stdlib Require Import ZArith Lia List Ascii String Bool.
From stdpp Require Import base gmap strings list.
Import ListNotations.

Set Warnings "-register-all".

Open Scope string_scope.
Open Scope list_scope.
Open Scope Z_scope.

(** ** Bytes *)

Module Bytes.

Definition code (c : ascii) : Z := Z.of_N (N_of_ascii c).

Definition byte (z : Z) : ascii := ascii_of_N (Z.to_N z).

Definition isb (c : ascii) (n : Z) : bool := code c =? n.

Definition between (lo : Z) (c : ascii) (hi : Z) : bool :=
  (lo <=? code c) && (code c <=? hi).

(** The double quote, which a Rocq string literal cannot hold undoubled. *)
Definition dquote : ascii := byte 34.

(** [text "{'bio':'x'}"] is the Go string [{"bio":"x"}]: every apostrophe
    of the literal stands for a double quote. *)
Fixpoint text (s : string) : string :=
  match s with
  | EmptyString => EmptyString
  | String c r => String (if isb c 39 then dquote else c) (text r)
  end.

(** [hex[n]] of [encoding/json]: the lower-case digit of a nibble. *)
Definition hex (n : Z) : ascii :=
  if n <? 10 then byte (48 + n) else byte (87 + n).

(** Value of a hexadecimal digit, [-1] when the byte is not one. *)
Definition unhex (c : ascii) : Z :=
  if between 48 c 57 then code c - 48
  else if between 97 c 102 then code c - 87
  else if between 65 c 70 then code c - 55
  else -1.

Definition of_list (l : list ascii) : string := string_of_list_ascii l.

End Bytes.

(** ** [unicode/utf8] and [unicode/utf16] *)

Module Utf8.
Import Bytes.

Definition RuneError : Z := 65533.
Definition MaxRune : Z := 1114111.

Definition cont (c : ascii) : bool := between 128 c 191.

(** [DecodeRune]/[DecodeRuneInString], as far as the callers here need it:
    the number of bytes of the well-formed encoding at the head of [s],
    and [0] where Go returns [(RuneError, 1)] (or [(RuneError, 0)] on the
    empty string).  The cases are those of Go's [first] table and
    [acceptRanges]. *)
Definition size (s : string) : nat :=
  match s with
  | EmptyString => 0%nat
  | String c0 r =>
    if code c0 <? 128 then 1%nat
    else if between 194 c0 223 then
      match r with
      | String c1 _ => if cont c1 then 2%nat else 0%nat
      | _ => 0%nat
      end
    else if between 224 c0 239 then
      match r with
      | String c1 (String c2 _) =>
        let lo := if isb c0 224 then 160 else 128 in
        let hi := if isb c0 237 then 159 else 191 in
        if between lo c1 hi && cont c2 then 3%nat else 0%nat
      | _ => 0%nat
      end
    else if between 240 c0 244 then
      match r with
      | String c1 (String c2 (String c3 _)) =>
        let lo := if isb c0 240 then 144 else 128 in
        let hi := if isb c0 244 then 143 else 191 in
        if between lo c1 hi && cont c2 && cont c3 then 4%nat else 0%nat
      | _ => 0%nat
      end
    else 0%nat
  end.

(** [EncodeRune]/[AppendRune]. *)
Definition EncodeRune (r : Z) : string :=
  let three (r : Z) :=
    of_list [byte (224 + Z.shiftr r 12);
             byte (128 + Z.land (Z.shiftr r 6) 63);
             byte (128 + Z.land r 63)] in
  if (0 <=? r) && (r <=? 127) then of_list [byte r]
  else if (0 <=? r) && (r <=? 2047) then
    of_list [byte (192 + Z.shiftr r 6); byte (128 + Z.land r 63)]
  else if (r <? 0) || (MaxRune <? r) || ((55296 <=? r) && (r <=? 57343))
  then three RuneError
  else if r <=? 65535 then three r
  else
    of_list [byte (240 + Z.shiftr r 18);
             byte (128 + Z.land (Z.shiftr r 12) 63);
             byte (128 + Z.land (Z.shiftr r 6) 63);
             byte (128 + Z.land r 63)].

(** [utf16.IsSurrogate]. *)
Definition IsSurrogate (r : Z) : bool := (55296 <=? r) && (r <? 57344).

(** [utf16.DecodeRune]: the code point of a surrogate pair, [RuneError]
    when the two are not a high and a low surrogate. *)
Definition DecodeSurrogates (r1 r2 : Z) : Z :=
  if (55296 <=? r1) && (r1 <? 56320) && (56320 <=? r2) && (r2 <? 57344)
  then Z.lor (Z.shiftl (r1 - 55296) 10) (r2 - 56320) + 65536
  else RuneError.

End Utf8.

(** ** [strings.Split] *)

Module Strings.

(** [strings.Split(s, sep)] for a separator of one byte: the substrings
    between the occurrences of [sep]; [n] occurrences give [n + 1]
    fields, so the result is never empty. *)
Fixpoint Split (s : string) (sep : ascii) : list string :=
  match s with
  | EmptyString => [EmptyString]
  | String c r =>
    if Ascii.eqb c sep then EmptyString :: Split r sep
    else match Split r sep with
         | f :: fs => String c f :: fs
         | [] => [String c EmptyString]
         end
  end.

End Strings.

(** ** [encoding/json]: syntax *)

Module Json.
Import Bytes.

(** A JSON text as the decoder walks it.  Strings and keys keep the bytes
    between their quotes, escapes included: [Unmarshal] unquotes them
    where it stores them, and [time.Time] reads them raw. *)
Inductive json : Type :=
| JNull
| JBool (b : bool)
| JNumber (lit : string)
| JString (raw : string)
| JArray (elems : list json)
| JObject (members : list (string * json)).

Inductive token : Type :=
| TBeginObject | TEndObject | TBeginArray | TEndArray | TColon | TComma
| TLit (v : json).

(** States of the scanner inside a number ([state1], [state0], [stateDot],
    ... of [scanner.go]). *)
Inductive num_state : Type :=
| NNeg | NZero | NInt | NDot | NFrac | NExp | NExpSign | NExpInt.

Definition num_accepting (n : num_state) : bool :=
  match n with
  | NZero | NInt | NFrac | NExpInt => true
  | _ => false
  end.

Inductive lex_mode : Type :=
| LIdle
| LStr (acc : list ascii)
| LStrEsc (acc : list ascii)
| LStrU (acc : list ascii) (todo : nat)
| LNum (n : num_state) (acc : list ascii)
| LWord (rest : list ascii) (v : json).

(** Both are kept newest first. *)
Definition lex_state : Type := (lex_mode * list token)%type.

Definition is_space (c : ascii) : bool :=
  isb c 32 || isb c 9 || isb c 13 || isb c 10.

Definition is_digit (c : ascii) : bool := between 48 c 57.

Definition lex_idle (c : ascii) (out : list token) : option lex_state :=
  if is_space c then Some (LIdle, out)
  else if isb c 123 then Some (LIdle, TBeginObject :: out)
  else if isb c 125 then Some (LIdle, TEndObject :: out)
  else if isb c 91 then Some (LIdle, TBeginArray :: out)
  else if isb c 93 then Some (LIdle, TEndArray :: out)
  else if isb c 58 then Some (LIdle, TColon :: out)
  else if isb c 44 then Some (LIdle, TComma :: out)
  else if isb c 34 then Some (LStr [], out)
  else if isb c 45 then Some (LNum NNeg [c], out)
  else if isb c 48 then Some (LNum NZero [c], out)
  else if between 49 c 57 then Some (LNum NInt [c], out)
  else if isb c 116 then Some (LWord (list_ascii_of_string "rue") (JBool true), out)
  else if isb c 102 then Some (LWord (list_ascii_of_string "alse") (JBool false), out)
  else if isb c 110 then Some (LWord (list_ascii_of_string "ull") JNull, out)
  else None.

(** The next state of a number on byte [c], [None] when [c] does not
    continue the number. *)
Definition num_step (n : num_state) (c : ascii) : option num_state :=
  let is_e := isb c 101 || isb c 69 in
  match n with
  | NNeg => if isb c 48 then Some NZero
            else if between 49 c 57 then Some NInt else None
  | NZero => if isb c 46 then Some NDot else if is_e then Some NExp else None
  | NInt => if is_digit c then Some NInt
            else if isb c 46 then Some NDot
            else if is_e then Some NExp else None
  | NDot => if is_digit c then Some NFrac else None
  | NFrac => if is_digit c then Some NFrac
             else if is_e then Some NExp else None
  | NExp => if isb c 43 || isb c 45 then Some NExpSign
            else if is_digit c then Some NExpInt else None
  | NExpSign => if is_digit c then Some NExpInt else None
  | NExpInt => if is_digit c then Some NExpInt else None
  end.

(** The bytes that may follow a backslash, [u] apart. *)
Definition escape_char (c : ascii) : bool :=
  isb c 98 || isb c 102 || isb c 110 || isb c 114 || isb c 116
  || isb c 92 || isb c 47 || isb c 34.

Definition lex_step (st : lex_state) (c : ascii) : option lex_state :=
  let (mode, out) := st in
  match mode with
  | LIdle => lex_idle c out
  | LStr acc =>
    if isb c 34 then Some (LIdle, TLit (JString (of_list (rev acc))) :: out)
    else if isb c 92 then Some (LStrEsc (c :: acc), out)
    else if code c <? 32 then None
    else Some (LStr (c :: acc), out)
  | LStrEsc acc =>
    if escape_char c then Some (LStr (c :: acc), out)
    else if isb c 117 then Some (LStrU (c :: acc) 4, out)
    else None
  | LStrU acc todo =>
    if 0 <=? unhex c then
      match todo with
      | S O | O => Some (LStr (c :: acc), out)
      | S k => Some (LStrU (c :: acc) k, out)
      end
    else None
  | LNum n acc =>
    match num_step n c with
    | Some n' => Some (LNum n' (c :: acc), out)
    | None =>
      if num_accepting n
      then lex_idle c (TLit (JNumber (of_list (rev acc))) :: out)
      else None
    end
  | LWord rest v =>
    match rest with
    | [] => None
    | e :: rest' =>
      if Ascii.eqb c e then
        match rest' with
        | [] => Some (LIdle, TLit v :: out)
        | _ => Some (LWord rest' v, out)
        end
      else None
    end
  end.

Fixpoint lex_from (st : lex_state) (s : string) : option lex_state :=
  match s with
  | EmptyString => Some st
  | String c r =>
    match lex_step st c with
    | Some st' => lex_from st' r
    | None => None
    end
  end.

(** The tokens of a text, [None] on a byte the scanner rejects or when
    the text ends inside a token. *)
Definition lex (s : string) : option (list token) :=
  match lex_from (LIdle, []) s with
  | Some (LIdle, out) => Some (rev out)
  | Some (LNum n acc, out) =>
    if num_accepting n
    then Some (rev (TLit (JNumber (of_list (rev acc))) :: out))
    else None
  | _ => None
  end.

(** Containers under construction: elements so far, newest first; an
    object frame also holds the key whose value is being read. *)
Inductive frame : Type :=
| FArr (done : list json)
| FObj (done : list (string * json)) (key : string).

Inductive expect : Type :=
| EValue
| EArrFirst
| EArrNext (done : list json)
| EObjFirst
| EObjKey (done : list (string * json))
| EObjColon (done : list (string * json)) (key : string)
| EObjNext (done : list (string * json))
| EDone (v : json).

(** [maxNestingDepth] of [scanner.go]. *)
Definition maxNestingDepth : Z := 10000.

Record parse_state : Type := mkParse {
  stack : list frame;
  depth : Z;
  next : expect
}.

(** A value is complete: hand it to the enclosing container. *)
Definition complete (v : json) (stk : list frame) (d : Z) : parse_state :=
  match stk with
  | [] => mkParse [] d (EDone v)
  | FArr done :: stk' => mkParse stk' d (EArrNext (v :: done))
  | FObj done key :: stk' => mkParse stk' d (EObjNext ((key, v) :: done))
  end.

Definition open (stk : list frame) (d : Z) (e : expect) : option parse_state :=
  if d <? maxNestingDepth then Some (mkParse stk (d + 1) e) else None.

Definition parse_value (stk : list frame) (d : Z) (t : token) : option parse_state :=
  match t with
  | TLit v => Some (complete v stk d)
  | TBeginArray => open stk d EArrFirst
  | TBeginObject => open stk d EObjFirst
  | _ => None
  end.

Definition parse_step (st : parse_state) (t : token) : option parse_state :=
  let (stk, d, e) := st in
  match e with
  | EValue => parse_value stk d t
  | EArrFirst =>
    match t with
    | TEndArray => Some (complete (JArray []) stk (d - 1))
    | _ => parse_value (FArr [] :: stk) d t
    end
  | EArrNext done =>
    match t with
    | TComma => Some (mkParse (FArr done :: stk) d EValue)
    | TEndArray => Some (complete (JArray (rev done)) stk (d - 1))
    | _ => None
    end
  | EObjFirst =>
    match t with
    | TEndObject => Some (complete (JObject []) stk (d - 1))
    | TLit (JString k) => Some (mkParse stk d (EObjColon [] k))
    | _ => None
    end
  | EObjKey done =>
    match t with
    | TLit (JString k) => Some (mkParse stk d (EObjColon done k))
    | _ => None
    end
  | EObjColon done k =>
    match t with
    | TColon => Some (mkParse (FObj done k :: stk) d EValue)
    | _ => None
    end
  | EObjNext done =>
    match t with
    | TComma => Some (mkParse stk d (EObjKey done))
    | TEndObject => Some (complete (JObject (rev done)) stk (d - 1))
    | _ => None
    end
  | EDone _ => None
  end.

Fixpoint parse_from (st : parse_state) (ts : list token) : option parse_state :=
  match ts with
  | [] => Some st
  | t :: ts' =>
    match parse_step st t with
    | Some st' => parse_from st' ts'
    | None => None
    end
  end.

(** [checkValid] and the walk of the decoder in one: the value a text
    denotes, [None] where [json.Unmarshal] returns a [SyntaxError]. *)
Definition parse (s : string) : option json :=
  match lex s with
  | None => None
  | Some ts =>
    match parse_from (mkParse [] 0 EValue) ts with
    | Some (mkParse _ _ (EDone v)) => Some v
    | _ => None
    end
  end.

(** *** Unquoting

    [unquoteBytes] on the bytes between the quotes of a string the
    scanner accepted: escapes are decoded, a [\u] escape of a surrogate
    is joined with a following low surrogate or replaced by U+FFFD, and
    bytes that are not well-formed UTF-8 are replaced by U+FFFD.  [skip]
    counts the continuation bytes of a well-formed sequence still to be
    copied.  An escape the scanner would have rejected ends the result:
    Go never reaches it. *)

Definition getu4 (h1 h2 h3 h4 : ascii) : Z :=
  if (0 <=? unhex h1) && (0 <=? unhex h2) && (0 <=? unhex h3) && (0 <=? unhex h4)
  then ((unhex h1 * 16 + unhex h2) * 16 + unhex h3) * 16 + unhex h4
  else -1.

Definition simple_escape (c : ascii) : option ascii :=
  if isb c 34 || isb c 92 || isb c 47 || isb c 39 then Some c
  else if isb c 98 then Some (byte 8)
  else if isb c 102 then Some (byte 12)
  else if isb c 110 then Some (byte 10)
  else if isb c 114 then Some (byte 13)
  else if isb c 116 then Some (byte 9)
  else None.

Fixpoint unquote_from (skip : nat) (s : string) : string :=
  match s with
  | EmptyString => EmptyString
  | String c r =>
    match skip with
    | S k => String c (unquote_from k r)
    | O =>
      if isb c 92 then
        match r with
        | EmptyString => EmptyString
        | String e r1 =>
          match simple_escape e with
          | Some b => String b (unquote_from 0 r1)
          | None =>
            match r1 with
            | String h1 (String h2 (String h3 (String h4 r2))) =>
              let rr := getu4 h1 h2 h3 h4 in
              if negb (isb e 117) || (rr <? 0) then EmptyString
              else if Utf8.IsSurrogate rr then
                match r2 with
                | String b1 (String b2 (String g1 (String g2 (String g3 (String g4 r3))))) =>
                  let rr1 := if isb b1 92 && isb b2 117 then getu4 g1 g2 g3 g4 else -1 in
                  let dec := Utf8.DecodeSurrogates rr rr1 in
                  if dec =? Utf8.RuneError
                  then Utf8.EncodeRune Utf8.RuneError +:+ unquote_from 0 r2
                  else Utf8.EncodeRune dec +:+ unquote_from 0 r3
                | _ => Utf8.EncodeRune Utf8.RuneError +:+ unquote_from 0 r2
                end
              else Utf8.EncodeRune rr +:+ unquote_from 0 r2
            | _ => EmptyString
            end
          end
        end
      else if code c <? 128 then String c (unquote_from 0 r)
      else
        match Utf8.size s with
        | O => Utf8.EncodeRune Utf8.RuneError +:+ unquote_from 0 r
        | S k => String c (unquote_from k r)
        end
    end
  end.

Definition unquote (raw : string) : string := unquote_from 0 raw.

(** *** Field names

    [foldName]: the key with every rune replaced by the least rune of its
    case-folding orbit.  ASCII letters go to upper case, and the two
    runes outside ASCII whose orbit holds an ASCII letter go to it:
    U+017F (long s, bytes C5 BF) to S and U+212A (Kelvin sign, bytes
    E2 84 AA) to K.  Every other rune outside ASCII folds to a rune
    outside ASCII and is kept as it is here: the folded key is only ever
    compared with the folded names of the fields, which are ASCII. *)
Fixpoint foldName (s : string) : string :=
  match s with
  | EmptyString => EmptyString
  | String c r =>
    if between 97 c 122 then String (byte (code c - 32)) (foldName r)
    else
      match r with
      | String c1 r1 =>
        if isb c 197 && isb c1 191 then String (byte 83) (foldName r1)
        else
          match r1 with
          | String c2 r2 =>
            if isb c 226 && isb c1 132 && isb c2 170
            then String (byte 75) (foldName r2)
            else String c (foldName r)
          | EmptyString => String c (foldName r)
          end
      | EmptyString => String c EmptyString
      end
  end.

(** *** Encoding

    [appendString] with [escapeHTML] set, which is how [Marshal] writes
    every string and key: the bytes of [htmlSafeSet] are copied, the
    others below 0x80 are escaped, an ill-formed byte becomes the six
    bytes of the escape of U+FFFD, and U+2028 and U+2029 become their escapes. *)
Definition htmlSafe (c : ascii) : bool :=
  between 32 c 127
  && negb (isb c 34 || isb c 92 || isb c 60 || isb c 62 || isb c 38).

Definition u00 (c : ascii) : string :=
  "\u00" +:+ of_list [hex (Z.shiftr (code c) 4); hex (Z.land (code c) 15)].

(** The escape of a byte below 0x80 that is not copied.  The short forms
    of backspace and form feed are those of Go 1.22 and later. *)
Definition escape_byte (c : ascii) : string :=
  if isb c 92 || isb c 34 then of_list ["\"%char; c]
  else if isb c 8 then "\b"
  else if isb c 12 then "\f"
  else if isb c 10 then "\n"
  else if isb c 13 then "\r"
  else if isb c 9 then "\t"
  else u00 c.

Fixpoint quote_from (skip : nat) (s : string) : string :=
  match s with
  | EmptyString => EmptyString
  | String c r =>
    match skip with
    | S k => String c (quote_from k r)
    | O =>
      if code c <? 128 then
        (if htmlSafe c then String c (quote_from 0 r)
         else escape_byte c +:+ quote_from 0 r)
      else
        match Utf8.size s, r with
        | O, _ => "\uff" +:+ "fd" +:+ quote_from 0 r
        | S k, String c1 (String c2 r2) =>
          if isb c 226 && isb c1 128 && (isb c2 168 || isb c2 169)
          then "\u202" +:+ String (hex (Z.land (code c2) 15)) (quote_from 0 r2)
          else String c (quote_from k r)
        | S k, _ => String c (quote_from k r)
        end
    end
  end.

Definition quote (s : string) : string :=
  String dquote (quote_from 0 s +:+ String dquote EmptyString).

(** [json.HTMLEscape]: the text with [<], [>], [&], U+2028 and U+2029
    replaced by their [\u] escapes. *)
Fixpoint HTMLEscape (s : string) : string :=
  match s with
  | EmptyString => EmptyString
  | String c r =>
    if isb c 60 || isb c 62 || isb c 38 then u00 c +:+ HTMLEscape r
    else
      match r with
      | String c1 (String c2 r2) =>
        if isb c 226 && isb c1 128 && (isb c2 168 || isb c2 169)
        then "\u202" +:+ String (hex (Z.land (code c2) 15)) (HTMLEscape r2)
        else String c (HTMLEscape r)
      | _ => String c (HTMLEscape r)
      end
  end.

(** Keys of a marshalled map are written in increasing byte order. *)
Fixpoint insert_sorted (kv : string * string) (l : list (string * string))
  : list (string * string) :=
  match l with
  | [] => [kv]
  | kv' :: l' =>
    if String.leb (fst kv) (fst kv') then kv :: l
    else kv' :: insert_sorted kv l'
  end.

Definition sort_keys (l : list (string * string)) : list (string * string) :=
  fold_right insert_sorted [] l.

Definition member_text (kv : string * string) : string :=
  quote (fst kv) +:+ ":" +:+ quote (snd kv).

Fixpoint join (sep : string) (l : list string) : string :=
  match l with
  | [] => EmptyString
  | [x] => x
  | x :: l' => x +:+ sep +:+ join sep l'
  end.

(** [json.Marshal] of a [map[string]interface{}] whose values are all
    strings, given as the list of its entries.  Such a map always
    marshals: the error result is [nil]. *)
Definition Marshal (entries : list (string * string)) : string :=
  "{" +:+ join "," (map member_text (sort_keys entries)) +:+ "}".

End Json.

(** ** The request and response of the Lambda runtime
    ([events.APIGatewayV2HTTPRequest] and [...Response]) *)

(** A value of type [interface{}] in the authorizer's claims, as the
    runtime decodes it from JSON. *)
Inductive any : Type :=
| AnyNil
| AnyBool (b : bool)
| AnyNumber (lit : string)
| AnyString (s : string).

Record HTTPDescription : Type := mkHTTP { Method : string }.

(** [Lambda] is a [map[string]interface{}]. *)
Record AuthorizerDescription : Type := mkAuthorizer { Lambda : gmap string any }.

(** [Authorizer] is a pointer in Go: [None] is [nil]. *)
Record RequestContextT : Type := mkRequestContext {
  HTTP : HTTPDescription;
  Authorizer : option AuthorizerDescription
}.

Record Request : Type := mkRequest {
  RequestContext : RequestContextT;
  ReqHeaders : gmap string string;
  ReqBody : string
}.

Record Response : Type := mkResponse {
  StatusCode : Z;
  Body : string;
  Headers : gmap string string
}.

(** A Go [error], by its text; [option error] is an [error] that may be
    [nil]. *)
Definition error : Type := string.

(** [cognitoidentityprovider]'s [AttributeType].  The service fills in
    both pointers of every attribute it returns; they are taken as set. *)
Record AttributeType : Type := mkAttribute { Name : string; Value : string }.

(** What the decoder can report. *)
Inductive UnmarshalError : Type :=
| SyntaxError
| UnmarshalTypeError (value : string) (target : string)
| TimeError (v : Json.json).

(** The fields of [User], in the order of the struct. *)
Inductive field : Type :=
| FCreatedAt | FUpdatedAt | FDeletedAt | FUsername | FBio | FProfilePicture.

Definition field_name (f : field) : string :=
  match f with
  | FCreatedAt => "CreatedAt"
  | FUpdatedAt => "UpdatedAt"
  | FDeletedAt => "DeletedAt"
  | FUsername => "Username"
  | FBio => "Bio"
  | FProfilePicture => "ProfilePicture"
  end.

Definition fields : list field :=
  [FCreatedAt; FUpdatedAt; FDeletedAt; FUsername; FBio; FProfilePicture].

(** The field a key of the body names.  No field of [User] carries a
    [json] tag, so the names are the Go names; the decoder takes the field
    whose name is the key, and otherwise the one whose name equals the key
    up to case folding. *)
Definition find_field (key : string) : option field :=
  match List.find (fun f => String.eqb (field_name f) key) fields with
  | Some f => Some f
  | None =>
    List.find (fun f => String.eqb (Json.foldName (field_name f)) (Json.foldName key))
              fields
  end.

(** Calls that leave the process, as the [World] logs them. *)
Inductive call (U : Type) : Type :=
| CallOpen
| CallFirst (username : string)
| CallSave (u : U)
| CallLoadConfig
| CallGetUser (token : string).
Arguments CallOpen {U}.
Arguments CallFirst {U} username.
Arguments CallSave {U} u.
Arguments CallLoadConfig {U}.
Arguments CallGetUser {U} token.

(** How a Go function ends: it returns, or the goroutine panics. *)
Inductive outcome (A : Type) : Type :=
| Returns (a : A)
| Panics (msg : string).
Arguments Returns {A} a.
Arguments Panics {A} msg.

(** ** The program *)

Section Program.

(** [time.Time] is kept abstract.  [zero_time] is [time.Time{}];
    [parse_time] is the parser of [Time.UnmarshalJSON], applied to the
    bytes between the quotes of a JSON string (RFC 3339), [None] where
    it fails. *)
Context {Time : Type}.
Variable zero_time : Time.
Variable parse_time : string -> option Time.

Record User : Type := mkUser {
  CreatedAt : Time;
  UpdatedAt : Time;
  DeletedAt : Time;
  Username : string;
  Bio : string;
  ProfilePicture : string
}.

(** *** [json.Unmarshal(data, &user)] *)

Definition set_field_string (f : field) (s : string) (u : User) : User :=
  match f with
  | FUsername => mkUser (CreatedAt u) (UpdatedAt u) (DeletedAt u) s (Bio u) (ProfilePicture u)
  | FBio => mkUser (CreatedAt u) (UpdatedAt u) (DeletedAt u) (Username u) s (ProfilePicture u)
  | FProfilePicture => mkUser (CreatedAt u) (UpdatedAt u) (DeletedAt u) (Username u) (Bio u) s
  | _ => u
  end.

Definition set_field_time (f : field) (t : Time) (u : User) : User :=
  match f with
  | FCreatedAt => mkUser t (UpdatedAt u) (DeletedAt u) (Username u) (Bio u) (ProfilePicture u)
  | FUpdatedAt => mkUser (CreatedAt u) t (DeletedAt u) (Username u) (Bio u) (ProfilePicture u)
  | FDeletedAt => mkUser (CreatedAt u) (UpdatedAt u) t (Username u) (Bio u) (ProfilePicture u)
  | _ => u
  end.

Definition is_time_field (f : field) : bool :=
  match f with
  | FCreatedAt | FUpdatedAt | FDeletedAt => true
  | _ => false
  end.

(** The decoder in the middle of an object: the struct as written so
    far and the first type error it saved ([d.savedError]), or the error
    that stopped it. *)
Inductive decoding : Type :=
| Going (u : User) (saved : option UnmarshalError)
| Stopped (u : User) (err : UnmarshalError).

Definition saveError (saved : option UnmarshalError) (e : UnmarshalError)
  : option UnmarshalError :=
  match saved with
  | Some _ => saved
  | None => Some e
  end.

Definition value_kind (v : Json.json) : string :=
  match v with
  | Json.JNull => "null"
  | Json.JBool _ => "bool"
  | Json.JNumber _ => "number"
  | Json.JString _ => "string"
  | Json.JArray _ => "array"
  | Json.JObject _ => "object"
  end.

(** One member whose key names field [f].  A string field takes a JSON
    string, ignores [null], and saves a type error on anything else, after
    which decoding goes on.  A [time.Time] field is an [Unmarshaler]: it
    ignores [null], takes a string that parses, and any other value is
    an error that ends the decoding at once. *)
Definition store (f : field) (v : Json.json) (u : User)
           (saved : option UnmarshalError) : decoding :=
  if is_time_field f then
    match v with
    | Json.JNull => Going u saved
    | Json.JString raw =>
      match parse_time raw with
      | Some t => Going (set_field_time f t u) saved
      | None => Stopped u (TimeError v)
      end
    | _ => Stopped u (TimeError v)
    end
  else
    match v with
    | Json.JNull => Going u saved
    | Json.JString raw => Going (set_field_string f (Json.unquote raw) u) saved
    | _ => Going u (saveError saved
                      (UnmarshalTypeError (value_kind v) ("User." +:+ field_name f)))
    end.

(** The members of the object in turn; a key that names no field is
    skipped, a key met twice is stored twice. *)
Fixpoint decode_object (ms : list (string * Json.json)) (u : User)
         (saved : option UnmarshalError) : User * option UnmarshalError :=
  match ms with
  | [] => (u, saved)
  | (k, v) :: ms' =>
    match find_field (Json.unquote k) with
    | None => decode_object ms' u saved
    | Some f =>
      match store f v u saved with
      | Going u' saved' => decode_object ms' u' saved'
      | Stopped u' err => (u', Some err)
      end
    end
  end.

(** [json.Unmarshal([]byte(data), &user)]: the struct after the call and
    the error returned.  A text that is not JSON is rejected before
    anything is written. *)
Definition Unmarshal (data : string) (u : User) : User * option UnmarshalError :=
  match Json.parse data with
  | None => (u, Some SyntaxError)
  | Some (Json.JObject ms) => decode_object ms u None
  | Some Json.JNull => (u, None)
  | Some v => (u, Some (UnmarshalTypeError (value_kind v) "User"))
  end.

(** *** The world outside the process *)

(** A row of table [users]; the primary key [username] is the key of
    the table.  [deleted_at] is nullable. *)
Record Row : Type := mkRow {
  created_at : Time;
  updated_at : Time;
  deleted_at : option Time;
  bio : string;
  profile_picture : string
}.

Record World : Type := mkWorld {
  (** [gorm.Open] fails with this error *)
  open_error : option error;
  (** table [users] *)
  users : gmap string Row;
  (** the SELECT fails with this error, which is not [ErrRecordNotFound] *)
  query_error : option error;
  (** the write fails with this error *)
  save_error : option error;
  (** the clock of the store's session *)
  now : Time;
  (** [config.LoadDefaultConfig] fails with this error *)
  config_error : option error;
  (** the identity provider: attributes or an error, by access token *)
  GetUser : string -> error + list AttributeType;
  (** calls made so far, newest first *)
  calls : list (call User)
}.

Definition M (A : Type) : Type := World -> outcome A * World.

Definition ret {A} (a : A) : M A := fun w => (Returns a, w).

Definition bind {A B} (m : M A) (k : A -> M B) : M B :=
  fun w =>
    match m w with
    | (Returns a, w') => k a w'
    | (Panics msg, w') => (Panics msg, w')
    end.

Definition panic {A} (msg : string) : M A := fun w => (Panics msg, w).

Definition ask : M World := fun w => (Returns w, w).

Definition log (c : call User) : M unit :=
  fun w => (Returns tt,
            mkWorld (open_error w) (users w) (query_error w) (save_error w)
                    (now w) (config_error w) (GetUser w) (c :: calls w)).

Definition put_users (t : gmap string Row) : M unit :=
  fun w => (Returns tt,
            mkWorld (open_error w) t (query_error w) (save_error w)
                    (now w) (config_error w) (GetUser w) (calls w)).

Notation "x <- m ;; k" := (bind m (fun x => k))
  (at level 100, m at next level, right associativity).
Notation "m ;;; k" := (bind m (fun _ => k))
  (at level 100, right associativity).

(** **** gorm over MySQL *)

Definition ErrRecordNotFound : error := "record not found".

Definition scan (username : string) (r : Row) : User :=
  mkUser (created_at r) (updated_at r) (default zero_time (deleted_at r))
         username (bio r) (profile_picture r).

Definition row_of (u : User) (t : Time) : Row :=
  mkRow (CreatedAt u) t (Some (DeletedAt u)) (Bio u) (ProfilePicture u).

(** [gorm.Open(mysql.Open(dsn), &gorm.Config{})]. *)
Definition gorm_Open : M (error + unit) :=
  log CallOpen ;;;
  w <- ask ;;
  ret (match open_error w with Some e => inl e | None => inr tt end).

(** [db.Where("username = ?", username).First(&user)]: the row whose
    primary key is [username].  [DeletedAt] has type [time.Time], not
    [gorm.DeletedAt], so gorm adds no condition on [deleted_at].  The
    comparison is taken as equality of the two strings. *)
Definition db_First (username : string) : M (error + User) :=
  log (CallFirst username) ;;;
  w <- ask ;;
  ret (match query_error w with
       | Some e => inl e
       | None =>
         match users w !! username with
         | Some r => inr (scan username r)
         | None => inl ErrRecordNotFound
         end
       end).

(** [db.Save(&user)]: all columns of the row whose primary key is
    [user.Username] are written, the row being created when there is
    none; gorm sets [updated_at] to the current time. *)
Definition db_Save (u : User) : M (option error) :=
  log (CallSave u) ;;;
  w <- ask ;;
  match save_error w with
  | Some e => ret (Some e)
  | None =>
    put_users (<[Username u := row_of u (now w)]> (users w)) ;;;
    ret None
  end.

(** **** Cognito *)

Definition LoadDefaultConfig : M (option error) :=
  log CallLoadConfig ;;;
  w <- ask ;;
  ret (config_error w).

Definition Client_GetUser (token : string) : M (error + list AttributeType) :=
  log (CallGetUser token) ;;;
  w <- ask ;;
  ret (GetUser w token).

(** *** [main.go] *)

Definition connectDB : M (error + unit) :=
  r <- gorm_Open ;;
  match r with
  | inl err => ret (inl ("error: failed to connect to AWS RDS: " +:+ err))
  | inr db => ret (inr db)
  end.

Definition initClient : M (error + unit) :=
  r <- LoadDefaultConfig ;;
  match r with
  | Some err => ret (inl err)
  | None => ret (inr tt)
  end.

(** [req.RequestContext.Authorizer.Lambda["username"].(string)]: the
    dereference of a [nil] authorizer panics; a missing key gives the
    [nil] interface, on which the assertion fails like on any value
    that is not a string. *)
Definition username_claim (req : Request) : M (option string) :=
  match Authorizer (RequestContext req) with
  | None => panic "invalid memory address or nil pointer dereference"
  | Some a =>
    ret (match Lambda a !! "username" with
         | Some (AnyString s) => Some s
         | _ => None
         end)
  end.

(** [fields[i]] on a slice. *)
Definition index (l : list string) (i : nat) : M string :=
  match nth_error l i with
  | Some x => ret x
  | None => panic "index out of range"
  end.

(** The body of the loop over [cogInfo.UserAttributes]. *)
Definition attribute_step (acc : string * string) (v : AttributeType)
  : string * string :=
  let (email, nickname) := acc in
  if String.eqb (Name v) "email" then (Value v, nickname)
  else if String.eqb (Name v) "nickname" then (email, Value v)
  else (email, nickname).

Definition plain (status : Z) (body : string) : Response :=
  mkResponse status body ∅.

(** GET: Returns user info *)
Definition read (req : Request) : M (Response * option error) :=
  d <- connectDB ;;
  match d with
  | inl err => ret (plain 500 err, None)
  | inr db =>
    claim <- username_claim req ;;
    match claim with
    | None => ret (plain 500 "failed to parse username", None)
    | Some username =>
      c <- initClient ;;
      match c with
      | inl err => ret (plain 500 err, None)
      | inr cognitoClient =>
        authToken <- index (Strings.Split (default "" (ReqHeaders req !! "authorization")) " ") 1 ;;
        g <- Client_GetUser authToken ;;
        match g with
        | inl err => ret (plain 500 err, None)
        | inr cogInfo =>
          let (email, nickname) := fold_left attribute_step cogInfo ("", "") in
          if (String.length email =? 0)%nat
          then ret (plain 500 "could not find user email", None)
          else
            result <- db_First username ;;
            match result with
            | inl _ => ret (plain 404 "user not found", None)
            | inr user =>
              let response :=
                Json.Marshal [("username", username);
                              ("nickname", nickname);
                              ("email", email);
                              ("bio", Bio user);
                              ("profilePicture", ProfilePicture user)] in
              ret (mkResponse 200 (Json.HTMLEscape response)
                              {["Content-Type" := "application/json"]},
                   None)
            end
        end
      end
    end
  end.

Definition update (req : Request) : M (Response * option error) :=
  d <- connectDB ;;
  match d with
  | inl err => ret (plain 500 err, Some err)
  | inr db =>
    claim <- username_claim req ;;
    match claim with
    | None => ret (plain 500 "failed to parse username", None)
    | Some username =>
      result <- db_First username ;;
      match result with
      | inl _ => ret (plain 404 "user not found", None)
      | inr user =>
        let (user', err) := Unmarshal (ReqBody req) user in
        match err with
        | Some _ => ret (plain 400 "invalid request body", None)
        | None =>
          updatedUser <- db_Save user' ;;
          match updatedUser with
          | Some e => ret (plain 500 e, None)
          | None => ret (plain 200 "user updated successfully", None)
          end
        end
      end
    end
  end.

Definition handler (req : Request) : M (Response * option error) :=
  let method := Method (HTTP (RequestContext req)) in
  if String.eqb method "GET" then read req
  else if String.eqb method "PUT" then update req
  else
    let err := "HTTP method '" +:+ method +:+ "' not allowed" in
    ret (plain 405 err, None).

End Program.

Arguments User : clear implicits.
Arguments Row : clear implicits.
Arguments World : clear implicits.
Arguments M : clear implicits.
Arguments decoding : clear implicits.

Arguments Json.Marshal : simpl never.
Arguments Json.HTMLEscape : simpl never.
Arguments Json.parse : simpl never.
Arguments Json.unquote : simpl never.
Arguments Strings.Split : simpl never.

(** ** Notions the properties are stated with *)

(** The caller context carries username [name]. *)
Definition caller (req : Request) (name : string) : Prop :=
  exists a, Authorizer (RequestContext req) = Some a
            /\ Lambda a !! "username" = Some (AnyString name).

(** The [authorization] header as [read] looks it up: the empty string
    when the header is absent. *)
Definition authorization (req : Request) : string :=
  default "" (ReqHeaders req !! "authorization").

(** The header has a second field, [token], when split at spaces. *)
Definition bearer (req : Request) (token : string) : Prop :=
  exists scheme rest, Strings.Split (authorization req) " " = scheme :: token :: rest.

(** The value of the attribute called [name] in a response of the
    identity provider: the last one when there are several, [d] when
    there is none. *)
Definition attribute_or (name : string) (attrs : list AttributeType) (d : string)
  : string :=
  match List.find (fun a => String.eqb (Name a) name) (rev attrs) with
  | Some a => Value a
  | None => d
  end.

(** The same, the empty string standing for a missing attribute. *)
Definition attribute (name : string) (attrs : list AttributeType) : string :=
  attribute_or name attrs "".

(** The value of a field of [User]. *)
Definition field_value {Time : Type} (f : field) (u : User Time) : Time + string :=
  match f with
  | FCreatedAt => inl (CreatedAt u)
  | FUpdatedAt => inl (UpdatedAt u)
  | FDeletedAt => inl (DeletedAt u)
  | FUsername => inr (Username u)
  | FBio => inr (Bio u)
  | FProfilePicture => inr (ProfilePicture u)
  end.

(** Field [f] is present in a body: the body is a JSON object one of
    whose keys names [f] for the decoder. *)
Definition present (f : field) (data : string) : Prop :=
  exists ms k v, Json.parse data = Some (Json.JObject ms)
                 /\ In (k, v) ms
                 /\ find_field (Json.unquote k) = Some f.

(** *** Texts that [quote] writes between the quotes

    The next [k] bytes of [s] are continuation bytes. *)
Fixpoint conts (k : nat) (s : string) : Prop :=
  match k with
  | O => True
  | S k' =>
    match s with
    | String c r => Utf8.cont c = true /\ conts k' r
    | EmptyString => False
    end
  end.

(** [x] starts with two bytes that do not make U+2028 or U+2029 of a
    byte E2 before them. *)
Definition two_ok (x : string) : Prop :=
  match x with
  | String c1 (String c2 _) =>
    Bytes.isb c1 128 && (Bytes.isb c2 168 || Bytes.isb c2 169) = false
  | _ => False
  end.

(** Bytes that stand for themselves between quotes and that
    [json.HTMLEscape] leaves alone, and escapes. *)
Inductive escaped : string -> Prop :=
| escaped_nil : escaped EmptyString
| escaped_byte c x :
    32 <= Bytes.code c ->
    ~ In (Bytes.code c) [34; 92; 60; 62; 38] ->
    (Bytes.code c = 226 -> two_ok x) ->
    escaped x ->
    escaped (String c x)
| escaped_simple e x :
    Json.escape_char e = true ->
    escaped x ->
    escaped (String "\" (String e x))
| escaped_u h1 h2 h3 h4 x :
    0 <= Bytes.unhex h1 -> 0 <= Bytes.unhex h2 ->
    0 <= Bytes.unhex h3 -> 0 <= Bytes.unhex h4 ->
    escaped x ->
    escaped (String "\" (String "u" (String h1 (String h2 (String h3 (String h4 x)))))).

(** Well-formed UTF-8, read the way [quote_from] and [unquote_from] read
    a string. *)
Fixpoint well_formed (skip : nat) (s : string) : Prop :=
  match s with
  | EmptyString => skip = O
  | String c r =>
    match skip with
    | S k => well_formed k r
    | O =>
      if Bytes.code c <? 128 then well_formed 0 r
      else match Utf8.size s with
           | O => False
           | S k => well_formed k r
           end
    end
  end.

(** The world after call [c] is logged. *)
Definition logged {Time : Type} (c : call (User Time)) (w : World Time) : World Time :=
  mkWorld (open_error w) (users w) (query_error w) (save_error w)
          (now w) (config_error w) (GetUser w) (c :: calls w).

(** The world after a successful [db.Save(&u)]. *)
Definition saved {Time : Type} (u : User Time) (w : World Time) : World Time :=
  mkWorld (open_error w)
          (<[Username u := row_of u (now w)]> (users w))
          (query_error w) (save_error w) (now w) (config_error w)
          (GetUser w) (CallSave u :: calls w).

(** The world with another state of the store: table [t], queries that
    fail as [q] says. *)
Definition with_store {Time : Type} (t : gmap string (Row Time)) (q : option error)
           (w : World Time) : World Time :=
  mkWorld (open_error w) t q (save_error w) (now w) (config_error w)
          (GetUser w) (calls w).

(** [m] writes nothing to the table and makes no call to [Save]. *)
Definition writes_nothing {Time : Type} {A : Type} (m : M Time A) : Prop :=
  forall w, users (snd (m w)) = users w
            /\ forall u, In (CallSave u) (calls (snd (m w))) -> In (CallSave u) (calls w).

(** Whenever [m] returns, the error it returns is [nil]. *)
Definition nil_error {Time : Type} (m : M Time (Response * option error)) : Prop :=
  forall w resp err, fst (m w) = Returns (resp, err) -> err = None.

(** ** A world to run requests in

    Times are seconds; the time parser of this instance accepts no text,
    and the requests run in it carry no timestamp. *)
Module Sample.

Definition no_times : string -> option Z := fun _ => None.

Definition alice_row : Row Z := mkRow 100 150 None "hello" "pic.png".

Definition provider (token : string) : error + list AttributeType :=
  if String.eqb token "tok"
  then inr [mkAttribute "sub" "123";
            mkAttribute "email" "alice@example.com";
            mkAttribute "nickname" "Al"]
  else if String.eqb token "anon"
  then inr [mkAttribute "sub" "456"; mkAttribute "nickname" "Nobody"]
  else inl "NotAuthorizedException: Invalid Access Token".

Definition world : World Z :=
  mkWorld None (<["alice" := alice_row]> ∅) None None 200 None provider [].

(** The same with the connection to the database refused. *)
Definition world_db_down : World Z :=
  mkWorld (Some "dial tcp: connection refused")
          (<["alice" := alice_row]> ∅) None None 200 None provider [].

(** The same with queries failing after the connection is made. *)
Definition world_query_fails : World Z :=
  mkWorld None (<["alice" := alice_row]> ∅)
          (Some "Error 1146: Table 'trill.users' doesn't exist")
          None 200 None provider [].

(** The same with the row of alice carrying a deletion time. *)
Definition world_deleted : World Z :=
  mkWorld None (<["alice" := mkRow 100 150 (Some 180) "hello" "pic.png"]> ∅)
          None None 200 None provider [].

(** A request of caller [alice]. *)
Definition request (method header body : string) : Request :=
  mkRequest
    (mkRequestContext (mkHTTP method)
       (Some (mkAuthorizer (<["username" := AnyString "alice"]> ∅))))
    (<["authorization" := header]> ∅)
    body.

Definition run (req : Request) (w : World Z) :=
  handler 0 no_times req w.

End Sample.

(** ** Notions for the handler as a whole *)

(** The string has no space in it. *)
Definition spaceless (s : string) : Prop := ~ In " "%char (list_ascii_of_string s).

(** The calls made between two worlds, newest first. *)
Definition made {Time : Type} (new : list (call (User Time))) (w w' : World Time) : Prop :=
  calls w' = new ++ calls w.


Definition member_string (kv : string * Json.json) : option (string * string) :=
  match snd kv with
  | Json.JString raw => Some (Json.unquote (fst kv), Json.unquote raw)
  | _ => None
  end.

(** ** More worlds and requests to run *)
Module Cases.

(** A request whose authorizer made no claim about the username. *)
Definition request_without_claim (method header body : string) : Request :=
  mkRequest
    (mkRequestContext (mkHTTP method)
       (Some (mkAuthorizer (<["scope" := AnyString "profile"]> ∅))))
    (<["authorization" := header]> ∅)
    body.

(** The sample world with the configuration of the Cognito client
    missing. *)
Definition world_no_config : World Z :=
  mkWorld None (<["alice" := Sample.alice_row]> ∅) None None 200
          (Some "failed to load shared config file") Sample.provider [].

(** The sample world with a store that refuses writes. *)
Definition world_read_only : World Z :=
  mkWorld None (<["alice" := Sample.alice_row]> ∅) None
          (Some "Error 1290: The MySQL server is running with the --read-only option")
          200 None Sample.provider [].

(** The attributes the sample provider returns for the token [tok]. *)
Definition attributes_of_alice : list AttributeType :=
  [mkAttribute "sub" "123";
   mkAttribute "email" "alice@example.com";
   mkAttribute "nickname" "Al"].

(** A row whose bio holds quotes and the bytes that [json.Marshal]
    escapes for HTML. *)
Definition row_with_markup : Row Z :=
  mkRow 100 150 None (Bytes.text "say 'hi' to <b>Al & co</b>") "pic.png".

(** The sample world with that row for alice. *)
Definition world_markup : World Z :=
  with_store (<["alice" := row_with_markup]> ∅) None Sample.world.

(** The body of the profile of alice in the sample world. *)
Definition profile_of_alice : string :=
  Bytes.text "{'bio':'hello','email':'alice@example.com','nickname':'Al','profilePicture':'pic.png','username':'alice'}".

End Cases.

(** * Properties *)

(** ** Bytes *)

Lemma code_range c : 0 <= Bytes.code c < 256.
Proof.
  unfold Bytes.code. pose proof (N_ascii_bounded c) as H. lia.
Qed.

Lemma byte_code c : Bytes.byte (Bytes.code c) = c.
Proof.
  unfold Bytes.byte, Bytes.code. rewrite N2Z.id. apply ascii_N_embedding.
Qed.

Lemma code_byte z : 0 <= z < 256 -> Bytes.code (Bytes.byte z) = z.
Proof.
  intros H. unfold Bytes.byte, Bytes.code.
  rewrite N_ascii_embedding by lia. lia.
Qed.

Lemma code_inj c n : Bytes.code c = n -> c = Bytes.byte n.
Proof. intros <-. symmetry. apply byte_code. Qed.

(** Decide the byte tests of a goal from the linear facts at hand. *)
Ltac bytes :=
  unfold Utf8.cont in *; unfold Bytes.isb, Bytes.between in *;
  repeat match goal with
         | |- context [?a =? ?b] => destruct (Z.eqb_spec a b)
         | |- context [?a <=? ?b] => destruct (Z.leb_spec a b)
         | |- context [?a <? ?b] => destruct (Z.ltb_spec a b)
         end;
  simpl; try solve [intros; first [reflexivity | discriminate | lia | congruence]].

Lemma hex_digit n : 0 <= n < 16 -> 0 <= Bytes.unhex (Bytes.hex n) /\ Bytes.unhex (Bytes.hex n) = n.
Proof.
  intros H. rewrite <- (Z2Nat.id n) by lia.
  assert (Hk : (Z.to_nat n < 16)%nat) by lia.
  revert Hk. generalize (Z.to_nat n). intros k Hk.
  do 16 (destruct k as [|k]; [vm_compute; split; [discriminate|reflexivity]|]).
  lia.
Qed.

Lemma high_nibble c : 0 <= Z.shiftr (Bytes.code c) 4 < 16.
Proof.
  pose proof (code_range c). rewrite Z.shiftr_div_pow2 by lia.
  change (2 ^ 4) with 16. split.
  - apply Z.div_pos; lia.
  - apply Z.div_lt_upper_bound; lia.
Qed.

Lemma low_nibble z : 0 <= Z.land z 15 < 16.
Proof.
  change 15 with (Z.ones 4). rewrite Z.land_ones by lia.
  apply Z.mod_pos_bound. reflexivity.
Qed.

Lemma nibbles c : Z.shiftr (Bytes.code c) 4 * 16 + Z.land (Bytes.code c) 15 = Bytes.code c.
Proof.
  rewrite Z.shiftr_div_pow2 by lia. change 15 with (Z.ones 4).
  rewrite Z.land_ones by lia. change (2 ^ 4) with 16.
  pose proof (Z.div_mod (Bytes.code c) 16). lia.
Qed.

(** ** [json.HTMLEscape] and the scanner on what [quote] writes *)

Lemma escape_char_code e :
  Json.escape_char e = true ->
  In (Bytes.code e) [98; 102; 110; 114; 116; 92; 47; 34].
Proof.
  unfold Json.escape_char, Bytes.isb. intros H. simpl.
  repeat match type of H with
         | context [?a =? ?b] => destruct (Z.eqb_spec a b); [auto 10|]
         end.
  discriminate H.
Qed.

Lemma hex_code h :
  0 <= Bytes.unhex h ->
  48 <= Bytes.code h <= 57 \/ 97 <= Bytes.code h <= 102 \/ 65 <= Bytes.code h <= 70.
Proof.
  unfold Bytes.unhex, Bytes.between. intros H.
  repeat match type of H with
         | context [?a <=? ?b] => destruct (Z.leb_spec a b)
         end; simpl in H; lia.
Qed.

Lemma HTMLEscape_other c r :
  ~ In (Bytes.code c) [60; 62; 38; 226] ->
  Json.HTMLEscape (String c r) = String c (Json.HTMLEscape r).
Proof.
  intros H. simpl in H. unfold Json.HTMLEscape; fold Json.HTMLEscape.
  assert (E1 : Bytes.isb c 60 || Bytes.isb c 62 || Bytes.isb c 38 = false) by bytes.
  assert (E2 : Bytes.isb c 226 = false) by bytes.
  rewrite E1, E2. simpl. destruct r as [|c1 [|c2 r2]]; reflexivity.
Qed.

Lemma HTMLEscape_lead c x t :
  Bytes.code c = 226 -> two_ok x ->
  Json.HTMLEscape (String c (x +:+ t)) = String c (Json.HTMLEscape (x +:+ t)).
Proof.
  intros Hc H. destruct x as [|c1 [|c2 x]]; try contradiction. simpl in H.
  change ((String c1 (String c2 x)) +:+ t) with (String c1 (String c2 (x +:+ t))).
  unfold Json.HTMLEscape at 1; fold Json.HTMLEscape.
  assert (E1 : Bytes.isb c 60 || Bytes.isb c 62 || Bytes.isb c 38 = false) by bytes.
  rewrite E1, <- andb_assoc, H, andb_false_r. reflexivity.
Qed.

Lemma HTMLEscape_escaped x t :
  escaped x -> Json.HTMLEscape (x +:+ t) = x +:+ Json.HTMLEscape t.
Proof.
  induction 1 as [|c x Hlo Hnot Hlead Hx IH|e x He Hx IH|h1 h2 h3 h4 x H1 H2 H3 H4 Hx IH].
  - reflexivity.
  - change (String c x +:+ t) with (String c (x +:+ t)).
    destruct (Z.eq_dec (Bytes.code c) 226) as [E|E].
    + rewrite (HTMLEscape_lead c x t E (Hlead E)), IH. reflexivity.
    + rewrite HTMLEscape_other, IH; [reflexivity|].
      simpl in *. intuition lia.
  - change (String "\" (String e x) +:+ t) with (String "\" (String e (x +:+ t))).
    rewrite HTMLEscape_other by (vm_compute; intuition discriminate).
    rewrite HTMLEscape_other, IH; [reflexivity|].
    apply escape_char_code in He. simpl in *. intuition lia.
  - change (String "\" (String "u" (String h1 (String h2 (String h3 (String h4 x))))) +:+ t)
      with (String "\" (String "u" (String h1 (String h2 (String h3 (String h4 (x +:+ t))))))).
    apply hex_code in H1, H2, H3, H4.
    rewrite HTMLEscape_other by (vm_compute; intuition discriminate).
    rewrite HTMLEscape_other by (vm_compute; intuition discriminate).
    rewrite (HTMLEscape_other h1) by (simpl; intuition lia).
    rewrite (HTMLEscape_other h2) by (simpl; intuition lia).
    rewrite (HTMLEscape_other h3) by (simpl; intuition lia).
    rewrite (HTMLEscape_other h4) by (simpl; intuition lia).
    now rewrite IH.
Qed.

Lemma lex_step_string c acc out :
  32 <= Bytes.code c -> Bytes.code c <> 34 -> Bytes.code c <> 92 ->
  Json.lex_step (Json.LStr acc, out) c = Some (Json.LStr (c :: acc), out).
Proof. intros H1 H2 H3. unfold Json.lex_step. bytes. Qed.

Lemma lex_step_hex h acc k out :
  0 <= Bytes.unhex h ->
  Json.lex_step (Json.LStrU acc (S k), out) h
  = Some (match k with
          | O => Json.LStr (h :: acc)
          | S _ => Json.LStrU (h :: acc) k
          end, out).
Proof.
  intros H. unfold Json.lex_step.
  destruct (Z.leb_spec 0 (Bytes.unhex h)); [|lia]. destruct k; reflexivity.
Qed.

Lemma lex_step_backslash acc out :
  Json.lex_step (Json.LStr acc, out) "\" = Some (Json.LStrEsc ("\"%char :: acc), out).
Proof. reflexivity. Qed.

Lemma lex_step_u acc out :
  Json.lex_step (Json.LStrEsc acc, out) "u" = Some (Json.LStrU ("u"%char :: acc) 4, out).
Proof. reflexivity. Qed.

Lemma lex_step_escape e acc out :
  Json.escape_char e = true ->
  Json.lex_step (Json.LStrEsc acc, out) e = Some (Json.LStr (e :: acc), out).
Proof. intros H. unfold Json.lex_step. now rewrite H. Qed.

Lemma lex_from_step st c st' r :
  Json.lex_step st c = Some st' ->
  Json.lex_from st (String c r) = Json.lex_from st' r.
Proof. intros H. simpl. now rewrite H. Qed.

(** What [quote] writes between the quotes keeps the scanner inside the
    string, which collects it. *)
Lemma lex_from_escaped x :
  escaped x ->
  forall acc out t,
    Json.lex_from (Json.LStr acc, out) (x +:+ t)
    = Json.lex_from (Json.LStr (rev (list_ascii_of_string x) ++ acc), out) t.
Proof.
  induction 1 as [|c x Hlo Hnot Hlead Hx IH|e x He Hx IH|h1 h2 h3 h4 x H1 H2 H3 H4 Hx IH];
    intros acc out t.
  - reflexivity.
  - change (String c x +:+ t) with (String c (x +:+ t)).
    rewrite (lex_from_step _ _ _ _ (lex_step_string c acc out Hlo
                                      ltac:(simpl in Hnot; intuition lia)
                                      ltac:(simpl in Hnot; intuition lia))).
    rewrite IH. simpl. now rewrite <- app_assoc.
  - change (String "\" (String e x) +:+ t) with (String "\" (String e (x +:+ t))).
    rewrite (lex_from_step _ _ _ _ (lex_step_backslash acc out)).
    rewrite (lex_from_step _ _ _ _ (lex_step_escape e _ out He)).
    rewrite IH. simpl. now rewrite <- !app_assoc.
  - change (String "\" (String "u" (String h1 (String h2 (String h3 (String h4 x))))) +:+ t)
      with (String "\" (String "u" (String h1 (String h2 (String h3 (String h4 (x +:+ t))))))).
    rewrite (lex_from_step _ _ _ _ (lex_step_backslash acc out)).
    rewrite (lex_from_step _ _ _ _ (lex_step_u _ out)).
    rewrite (lex_from_step _ _ _ _ (lex_step_hex h1 _ _ out H1)).
    rewrite (lex_from_step _ _ _ _ (lex_step_hex h2 _ _ out H2)).
    rewrite (lex_from_step _ _ _ _ (lex_step_hex h3 _ _ out H3)).
    rewrite (lex_from_step _ _ _ _ (lex_step_hex h4 _ _ out H4)).
    rewrite IH. simpl. now rewrite <- !app_assoc.
Qed.

Lemma size_conts c r k :
  128 <= Bytes.code c -> Utf8.size (String c r) = S k -> conts k r.
Proof.
  intros Hc. unfold Utf8.size.
  destruct (Z.ltb_spec (Bytes.code c) 128); [lia|].
  destruct (Bytes.between 194 c 223).
  { destruct r as [|c1 r]; [discriminate|].
    destruct (Utf8.cont c1) eqn:E1; [|discriminate].
    intros [= <-]. simpl. auto. }
  destruct (Bytes.between 224 c 239).
  { destruct r as [|c1 [|c2 r]]; try discriminate.
    destruct (Bytes.between _ c1 _) eqn:E1; [|discriminate].
    destruct (Utf8.cont c2) eqn:E2; [|discriminate].
    intros [= <-]. simpl. repeat split; try assumption.
    revert E1. destruct (Bytes.isb c 224), (Bytes.isb c 237); bytes. }
  destruct (Bytes.between 240 c 244); [|discriminate].
  destruct r as [|c1 [|c2 [|c3 r]]]; try discriminate.
  destruct (Bytes.between _ c1 _) eqn:E1; [|discriminate].
  destruct (Utf8.cont c2) eqn:E2; [|discriminate].
  destruct (Utf8.cont c3) eqn:E3; [|discriminate].
  intros [= <-]. simpl. repeat split; try assumption.
  revert E1. destruct (Bytes.isb c 240), (Bytes.isb c 244); bytes.
Qed.

Lemma quote_from_cons c r :
  Json.quote_from 0 (String c r)
  = if Bytes.code c <? 128 then
      (if Json.htmlSafe c then String c (Json.quote_from 0 r)
       else Json.escape_byte c +:+ Json.quote_from 0 r)
    else
      match Utf8.size (String c r), r with
      | O, _ => "\uff" +:+ "fd" +:+ Json.quote_from 0 r
      | S k, String c1 (String c2 r2) =>
        if Bytes.isb c 226 && Bytes.isb c1 128 && (Bytes.isb c2 168 || Bytes.isb c2 169)
        then "\u202" +:+ String (Bytes.hex (Z.land (Bytes.code c2) 15)) (Json.quote_from 0 r2)
        else String c (Json.quote_from k r)
      | S k, _ => String c (Json.quote_from k r)
      end.
Proof. reflexivity. Qed.

Lemma escaped_escape_byte c x :
  Bytes.code c < 128 -> Json.htmlSafe c = false -> escaped x ->
  escaped (Json.escape_byte c +:+ x).
Proof.
  intros Hc Hs Hx. unfold Json.escape_byte.
  destruct (Bytes.isb c 92 || Bytes.isb c 34) eqn:E1.
  { apply (escaped_simple c x); [|exact Hx].
    unfold Json.escape_char. revert E1. bytes. }
  destruct (Bytes.isb c 8); [apply (escaped_simple "b" x); [reflexivity|exact Hx]|].
  destruct (Bytes.isb c 12); [apply (escaped_simple "f" x); [reflexivity|exact Hx]|].
  destruct (Bytes.isb c 10); [apply (escaped_simple "n" x); [reflexivity|exact Hx]|].
  destruct (Bytes.isb c 13); [apply (escaped_simple "r" x); [reflexivity|exact Hx]|].
  destruct (Bytes.isb c 9); [apply (escaped_simple "t" x); [reflexivity|exact Hx]|].
  unfold Json.u00.
  apply (escaped_u "0" "0" (Bytes.hex (Z.shiftr (Bytes.code c) 4))
                   (Bytes.hex (Z.land (Bytes.code c) 15)) x);
    [ vm_compute; discriminate | vm_compute; discriminate
    | apply hex_digit, high_nibble | apply hex_digit, low_nibble | exact Hx ].
Qed.

Lemma htmlSafe_code c :
  Json.htmlSafe c = true ->
  32 <= Bytes.code c <= 127 /\ ~ In (Bytes.code c) [34; 92; 60; 62; 38].
Proof. unfold Json.htmlSafe. simpl. bytes. Qed.

Lemma size_lead_226 c r k :
  Bytes.code c = 226 -> Utf8.size (String c r) = S k ->
  k = 2%nat /\ exists c1 c2 r2, r = String c1 (String c2 r2).
Proof.
  intros E. apply code_inj in E. subst c.
  destruct r as [|c1 [|c2 r2]]; try (vm_compute; discriminate).
  unfold Utf8.size.
  change (Bytes.code (Bytes.byte 226) <? 128) with false.
  change (Bytes.between 194 (Bytes.byte 226) 223) with false.
  change (Bytes.between 224 (Bytes.byte 226) 239) with true.
  cbv iota.
  destruct (Bytes.between _ c1 _ && Utf8.cont c2); [|discriminate].
  intros [= <-]. eauto.
Qed.

Lemma quote_from_escaped n :
  forall s k, (String.length s <= n)%nat -> conts k s -> escaped (Json.quote_from k s).
Proof.
  induction n as [|n IH]; intros s k Hlen Hk.
  { destruct s; [constructor|simpl in Hlen; lia]. }
  destruct s as [|c r]; [constructor|]. simpl in Hlen.
  assert (Hr : (String.length r <= n)%nat) by lia.
  destruct k as [|k].
  - rewrite quote_from_cons. destruct (Z.ltb_spec (Bytes.code c) 128) as [Hc|Hc].
    + destruct (Json.htmlSafe c) eqn:Hs.
      * apply htmlSafe_code in Hs. destruct Hs as [Hs1 Hs2].
        apply escaped_byte; [lia|exact Hs2|lia|apply IH; [exact Hr|exact I]].
      * apply escaped_escape_byte; [exact Hc|exact Hs|apply IH; [exact Hr|exact I]].
    + destruct (Utf8.size (String c r)) as [|k] eqn:Hsz.
      * apply (escaped_u "f" "f" "f" "d");
          [ vm_compute; discriminate | vm_compute; discriminate
          | vm_compute; discriminate | vm_compute; discriminate
          | apply IH; [exact Hr|exact I] ].
      * pose proof (size_conts c r k Hc Hsz) as Hk'.
        assert (Hcopy : (Bytes.code c = 226 -> two_ok (Json.quote_from k r)) ->
                        escaped (String c (Json.quote_from k r))).
        { intros H2. apply escaped_byte; [lia| |exact H2|apply IH; assumption].
          simpl. intuition lia. }
        destruct r as [|c1 [|c2 r2]].
        -- apply Hcopy. intros E.
           destruct (size_lead_226 _ _ _ E Hsz) as (_ & ? & ? & ? & ?). discriminate.
        -- apply Hcopy. intros E.
           destruct (size_lead_226 _ _ _ E Hsz) as (_ & ? & ? & ? & ?). discriminate.
        -- destruct (Bytes.isb c 226 && Bytes.isb c1 128
                     && (Bytes.isb c2 168 || Bytes.isb c2 169)) eqn:E.
           ++ apply (escaped_u "2" "0" "2");
                [ vm_compute; discriminate | vm_compute; discriminate
                | vm_compute; discriminate | apply hex_digit, low_nibble
                | apply IH; [simpl in Hr; lia|exact I] ].
           ++ apply Hcopy. intros Ec.
              destruct (size_lead_226 _ _ _ Ec Hsz) as (-> & _).
              simpl. rewrite <- andb_assoc in E.
              unfold Bytes.isb at 1 in E. rewrite Ec in E. exact E.
  - simpl. destruct Hk as [Hc Hk]. apply escaped_byte; [| | |now apply IH].
    + revert Hc. bytes.
    + revert Hc. simpl. bytes.
    + revert Hc. bytes.
Qed.

Lemma append_assoc (a b c : string) : (a +:+ b) +:+ c = a +:+ (b +:+ c).
Proof.
  induction a as [|x a IH]; [reflexivity|].
  change (String x ((a +:+ b) +:+ c) = String x (a +:+ (b +:+ c))). now rewrite IH.
Qed.

Lemma quote_escaped s : escaped (Json.quote_from 0 s).
Proof. apply (quote_from_escaped (String.length s)); [lia|exact I]. Qed.

Lemma quote_append s t :
  Json.quote s +:+ t
  = String Bytes.dquote (Json.quote_from 0 s +:+ String Bytes.dquote t).
Proof.
  unfold Json.quote.
  change (String Bytes.dquote (Json.quote_from 0 s +:+ String Bytes.dquote EmptyString) +:+ t)
    with (String Bytes.dquote ((Json.quote_from 0 s +:+ String Bytes.dquote EmptyString) +:+ t)).
  now rewrite append_assoc.
Qed.

(** [json.HTMLEscape] leaves a string written by [quote] as it is. *)
Lemma HTMLEscape_quote s t :
  Json.HTMLEscape (Json.quote s +:+ t) = Json.quote s +:+ Json.HTMLEscape t.
Proof.
  rewrite !quote_append.
  rewrite HTMLEscape_other by (vm_compute; intuition discriminate).
  rewrite (HTMLEscape_escaped _ _ (quote_escaped s)).
  rewrite HTMLEscape_other by (vm_compute; intuition discriminate).
  reflexivity.
Qed.

(** The scanner reads a string written by [quote] as one string token,
    whose raw text is what [quote] wrote between the quotes. *)
Lemma lex_from_quote s out t :
  Json.lex_from (Json.LIdle, out) (Json.quote s +:+ t)
  = Json.lex_from (Json.LIdle, Json.TLit (Json.JString (Json.quote_from 0 s)) :: out) t.
Proof.
  rewrite quote_append.
  rewrite (lex_from_step _ _ (Json.LStr [], out)) by reflexivity.
  rewrite (lex_from_escaped _ (quote_escaped s)).
  rewrite app_nil_r.
  rewrite (lex_from_step _ _ (Json.LIdle,
             Json.TLit (Json.JString
                          (Bytes.of_list (rev (rev (list_ascii_of_string (Json.quote_from 0 s))))))
             :: out)) by reflexivity.
  unfold Bytes.of_list. now rewrite rev_involutive, string_of_list_ascii_of_string.
Qed.

Lemma lex_from_punctuation out r :
  Json.lex_from (Json.LIdle, out) (String "{" r)
  = Json.lex_from (Json.LIdle, Json.TBeginObject :: out) r
  /\ Json.lex_from (Json.LIdle, out) (String "}" r)
     = Json.lex_from (Json.LIdle, Json.TEndObject :: out) r
  /\ Json.lex_from (Json.LIdle, out) (String ":" r)
     = Json.lex_from (Json.LIdle, Json.TColon :: out) r
  /\ Json.lex_from (Json.LIdle, out) (String "," r)
     = Json.lex_from (Json.LIdle, Json.TComma :: out) r.
Proof. repeat split. Qed.

(** The text of a marshalled profile. *)
Lemma Marshal_profile u n e b p :
  Json.Marshal [("username", u); ("nickname", n); ("email", e); ("bio", b);
                ("profilePicture", p)]
  = String "{"
      (Json.quote "bio" +:+ String ":" (Json.quote b +:+ String ","
      (Json.quote "email" +:+ String ":" (Json.quote e +:+ String ","
      (Json.quote "nickname" +:+ String ":" (Json.quote n +:+ String ","
      (Json.quote "profilePicture" +:+ String ":" (Json.quote p +:+ String ","
      (Json.quote "username" +:+ String ":" (Json.quote u +:+ "}")))))))))).
Proof.
  unfold Json.Marshal, Json.join, Json.member_text.
  change (Json.sort_keys [("username", u); ("nickname", n); ("email", e); ("bio", b);
                          ("profilePicture", p)])
    with [("bio", b); ("email", e); ("nickname", n); ("profilePicture", p);
          ("username", u)].
  cbn [map fst snd]. rewrite !append_assoc. reflexivity.
Qed.

(** The body of a profile is a JSON object of exactly five members; the
    value of each is the string [quote] wrote. *)
Lemma profile_parses u n e b p :
  Json.parse (Json.HTMLEscape
                (Json.Marshal [("username", u); ("nickname", n); ("email", e);
                               ("bio", b); ("profilePicture", p)]))
  = Some (Json.JObject
            [("bio", Json.JString (Json.quote_from 0 b));
             ("email", Json.JString (Json.quote_from 0 e));
             ("nickname", Json.JString (Json.quote_from 0 n));
             ("profilePicture", Json.JString (Json.quote_from 0 p));
             ("username", Json.JString (Json.quote_from 0 u))]).
Proof.
  rewrite Marshal_profile.
  repeat first [ rewrite HTMLEscape_quote
               | rewrite HTMLEscape_other by (vm_compute; intuition discriminate) ].
  change (Json.HTMLEscape "") with "".
  unfold Json.parse, Json.lex.
  repeat first [ rewrite lex_from_quote
               | rewrite (proj1 (lex_from_punctuation _ _))
               | rewrite (proj1 (proj2 (lex_from_punctuation _ _)))
               | rewrite (proj1 (proj2 (proj2 (lex_from_punctuation _ _))))
               | rewrite (proj2 (proj2 (proj2 (lex_from_punctuation _ _)))) ].
  reflexivity.
Qed.

(** ** Reading back what [quote] wrote *)

(** The first [k] bytes of two strings are the same. *)
Lemma size_of_prefix c r r' k :
  128 <= Bytes.code c ->
  Utf8.size (String c r) = S k ->
  (forall i, (i < k)%nat -> String.get i r' = String.get i r) ->
  Utf8.size (String c r') = S k.
Proof.
  intros Hc Hsz Hsame. revert Hsz. unfold Utf8.size.
  destruct (Bytes.code c <? 128); [intros [= <-]; reflexivity|].
  destruct (Bytes.between 194 c 223).
  { destruct r as [|c1 r]; [discriminate|].
    destruct (Utf8.cont c1) eqn:E1; [|discriminate]. intros [= <-].
    pose proof (Hsame 0%nat ltac:(lia)) as H0.
    destruct r' as [|c1' r']; [discriminate H0|].
    simpl in H0. injection H0 as ->. now rewrite E1. }
  destruct (Bytes.between 224 c 239).
  { destruct r as [|c1 [|c2 r]]; try discriminate.
    destruct (Bytes.between _ c1 _ && Utf8.cont c2) eqn:E; [|discriminate].
    intros [= <-].
    pose proof (Hsame 0%nat ltac:(lia)) as H0.
    pose proof (Hsame 1%nat ltac:(lia)) as H1.
    destruct r' as [|c1' [|c2' r']]; try discriminate.
    simpl in H0, H1. injection H0 as ->. injection H1 as ->. now rewrite E. }
  destruct (Bytes.between 240 c 244); [|discriminate].
  destruct r as [|c1 [|c2 [|c3 r]]]; try discriminate.
  destruct (Bytes.between _ c1 _ && Utf8.cont c2 && Utf8.cont c3) eqn:E; [|discriminate].
  intros [= <-].
  pose proof (Hsame 0%nat ltac:(lia)) as H0.
  pose proof (Hsame 1%nat ltac:(lia)) as H1.
  pose proof (Hsame 2%nat ltac:(lia)) as H2.
  destruct r' as [|c1' [|c2' [|c3' r']]]; try discriminate.
  simpl in H0, H1, H2. injection H0 as ->. injection H1 as ->. injection H2 as ->.
  now rewrite E.
Qed.

Lemma quote_from_prefix k :
  forall r i, conts k r -> (i < k)%nat ->
              String.get i (Json.quote_from k r) = String.get i r.
Proof.
  induction k as [|k IH]; intros r i Hk Hi; [lia|].
  destruct r as [|c r]; [destruct Hk|]. destruct Hk as [_ Hk].
  simpl. destruct i as [|i]; [reflexivity|]. apply IH; [exact Hk|lia].
Qed.

Lemma unquote_plain c r :
  Bytes.code c < 128 -> Bytes.code c <> 92 ->
  Json.unquote_from 0 (String c r) = String c (Json.unquote_from 0 r).
Proof.
  intros H1 H2. simpl.
  assert (E : Bytes.isb c 92 = false) by bytes. rewrite E.
  destruct (Z.ltb_spec (Bytes.code c) 128); [reflexivity|lia].
Qed.

Lemma unquote_simple e b r :
  Json.simple_escape e = Some b ->
  Json.unquote_from 0 (String "\" (String e r)) = String b (Json.unquote_from 0 r).
Proof.
  intros H. unfold Json.unquote_from; fold Json.unquote_from.
  change (Bytes.isb "\" 92) with true. cbv iota. now rewrite H.
Qed.

Lemma unquote_u h1 h2 h3 h4 r :
  0 <= Json.getu4 h1 h2 h3 h4 ->
  Utf8.IsSurrogate (Json.getu4 h1 h2 h3 h4) = false ->
  Json.unquote_from 0 (String "\" (String "u" (String h1 (String h2 (String h3 (String h4 r))))))
  = Utf8.EncodeRune (Json.getu4 h1 h2 h3 h4) +:+ Json.unquote_from 0 r.
Proof.
  intros H1 H2. unfold Json.unquote_from; fold Json.unquote_from.
  change (Bytes.isb "\" 92) with true. cbv iota.
  change (Json.simple_escape "u") with (@None ascii). cbv iota zeta.
  change (Bytes.isb "u" 117) with true. rewrite H2.
  destruct (Z.ltb_spec (Json.getu4 h1 h2 h3 h4) 0); [lia|]. reflexivity.
Qed.

Lemma unquote_lead c r k :
  128 <= Bytes.code c -> Utf8.size (String c r) = S k ->
  Json.unquote_from 0 (String c r) = String c (Json.unquote_from k r).
Proof.
  intros H1 H2. unfold Json.unquote_from; fold Json.unquote_from.
  assert (E : Bytes.isb c 92 = false) by bytes. rewrite E, H2.
  destruct (Z.ltb_spec (Bytes.code c) 128); [lia|reflexivity].
Qed.

Lemma getu4_hex a b n m :
  0 <= Bytes.unhex a -> 0 <= Bytes.unhex b -> 0 <= n < 16 -> 0 <= m < 16 ->
  Json.getu4 a b (Bytes.hex n) (Bytes.hex m)
  = ((Bytes.unhex a * 16 + Bytes.unhex b) * 16 + n) * 16 + m.
Proof.
  intros Ha Hb Hn Hm. unfold Json.getu4.
  destruct (hex_digit n Hn) as [Hn1 ->]. destruct (hex_digit m Hm) as [Hm1 ->].
  destruct (Z.leb_spec 0 (Bytes.unhex a)); [|lia].
  destruct (Z.leb_spec 0 (Bytes.unhex b)); [|lia].
  destruct (Z.leb_spec 0 n); [|lia]. destruct (Z.leb_spec 0 m); [|lia].
  reflexivity.
Qed.

Lemma EncodeRune_ascii c :
  Bytes.code c < 128 -> Utf8.EncodeRune (Bytes.code c) = String c EmptyString.
Proof.
  intros H. pose proof (code_range c). unfold Utf8.EncodeRune.
  destruct (Z.leb_spec 0 (Bytes.code c)); [|lia].
  destruct (Z.leb_spec (Bytes.code c) 127); [|lia].
  simpl. now rewrite byte_code.
Qed.

Lemma unquote_escape_byte c x :
  Bytes.code c < 128 -> Json.htmlSafe c = false ->
  Json.unquote_from 0 (Json.escape_byte c +:+ x) = String c (Json.unquote_from 0 x).
Proof.
  intros Hc Hs. unfold Json.escape_byte.
  destruct (Bytes.isb c 92 || Bytes.isb c 34) eqn:E1.
  { apply unquote_simple. unfold Json.simple_escape.
    rewrite (orb_comm (Bytes.isb c 34)), E1. reflexivity. }
  assert (special : forall n e, Bytes.isb c n = true ->
             Json.simple_escape e = Some (Bytes.byte n) ->
             Json.unquote_from 0 (String "\" (String e x))
             = String c (Json.unquote_from 0 x)).
  { intros n e Hn He. rewrite (unquote_simple e _ x He).
    unfold Bytes.isb in Hn. apply Z.eqb_eq in Hn. rewrite <- Hn. now rewrite byte_code. }
  destruct (Bytes.isb c 8) eqn:E8; [now apply (special 8 "b"%char)|].
  destruct (Bytes.isb c 12) eqn:E12; [now apply (special 12 "f"%char)|].
  destruct (Bytes.isb c 10) eqn:E10; [now apply (special 10 "n"%char)|].
  destruct (Bytes.isb c 13) eqn:E13; [now apply (special 13 "r"%char)|].
  destruct (Bytes.isb c 9) eqn:E9; [now apply (special 9 "t"%char)|].
  unfold Json.u00.
  change (("\u00" +:+ Bytes.of_list [Bytes.hex (Z.shiftr (Bytes.code c) 4);
                                    Bytes.hex (Z.land (Bytes.code c) 15)]) +:+ x)
    with (String "\" (String "u" (String "0" (String "0"
            (String (Bytes.hex (Z.shiftr (Bytes.code c) 4))
               (String (Bytes.hex (Z.land (Bytes.code c) 15)) x)))))).
  assert (G : Json.getu4 "0" "0" (Bytes.hex (Z.shiftr (Bytes.code c) 4))
                         (Bytes.hex (Z.land (Bytes.code c) 15)) = Bytes.code c).
  { rewrite getu4_hex; try (vm_compute; discriminate);
      [|apply high_nibble|apply low_nibble].
    change (Bytes.unhex "0") with 0. pose proof (nibbles c). lia. }
  pose proof (code_range c).
  rewrite unquote_u; rewrite G; [|lia|unfold Utf8.IsSurrogate; bytes].
  now rewrite EncodeRune_ascii.
Qed.

Lemma well_formed_cons c r :
  well_formed 0 (String c r)
  = if Bytes.code c <? 128 then well_formed 0 r
    else match Utf8.size (String c r) with
         | O => False
         | S k => well_formed k r
         end.
Proof. reflexivity. Qed.

Lemma unquote_quote_from n :
  forall s k, (String.length s <= n)%nat -> conts k s -> well_formed k s ->
              Json.unquote_from k (Json.quote_from k s) = s.
Proof.
  induction n as [|n IH]; intros s k Hlen Hk Hwf.
  { destruct s; [reflexivity|simpl in Hlen; lia]. }
  destruct s as [|c r]; [reflexivity|]. simpl in Hlen.
  assert (Hr : (String.length r <= n)%nat) by lia.
  destruct k as [|k].
  - rewrite quote_from_cons. rewrite well_formed_cons in Hwf.
    destruct (Z.ltb_spec (Bytes.code c) 128) as [Hc|Hc].
    + destruct (Json.htmlSafe c) eqn:Hs.
      * apply htmlSafe_code in Hs. destruct Hs as [Hs1 Hs2].
        rewrite unquote_plain by (simpl in Hs2; intuition lia).
        now rewrite IH.
      * rewrite unquote_escape_byte by assumption. now rewrite IH.
    + destruct (Utf8.size (String c r)) as [|k] eqn:Hsz; [destruct Hwf|].
      pose proof (size_conts c r k Hc Hsz) as Hk'.
      assert (Hcopy : Json.unquote_from 0 (String c (Json.quote_from k r)) = String c r).
      { rewrite (unquote_lead c _ k Hc).
        - now rewrite IH.
        - apply (size_of_prefix c r _ k Hc Hsz). intros i Hi.
          now apply quote_from_prefix. }
      destruct r as [|c1 [|c2 r2]]; try exact Hcopy.
      destruct (Bytes.isb c 226 && Bytes.isb c1 128
                && (Bytes.isb c2 168 || Bytes.isb c2 169)) eqn:E; [|exact Hcopy].
      apply andb_prop in E. destruct E as [E Ec2].
      apply andb_prop in E. destruct E as [Ec Ec1].
      unfold Bytes.isb in Ec, Ec1. apply Z.eqb_eq in Ec, Ec1.
      destruct (size_lead_226 _ _ _ Ec Hsz) as (-> & _).
      apply code_inj in Ec, Ec1. subst c c1.
      change ("\u202" +:+ String (Bytes.hex (Z.land (Bytes.code c2) 15))
                                 (Json.quote_from 0 r2))
        with (String "\" (String "u" (String "2" (String "0" (String "2"
                (String (Bytes.hex (Z.land (Bytes.code c2) 15))
                        (Json.quote_from 0 r2))))))).
      simpl in Hwf. rewrite <- (IH r2 0%nat) at 2; [|simpl in Hr; lia|exact I|exact Hwf].
      apply orb_prop in Ec2. unfold Bytes.isb in Ec2.
      destruct Ec2 as [E2|E2]; apply Z.eqb_eq in E2; apply code_inj in E2; subst c2;
        rewrite unquote_u by (vm_compute; first [discriminate|reflexivity]);
        reflexivity.
  - destruct Hk as [Hc Hk]. simpl in Hwf. simpl. now rewrite IH.
Qed.

(** [unquote] reads back a string of well-formed UTF-8 from what [quote]
    wrote for it. *)
Lemma unquote_quote s :
  well_formed 0 s -> Json.unquote (Json.quote_from 0 s) = s.
Proof.
  intros H. apply (unquote_quote_from (String.length s)); [lia|exact I|exact H].
Qed.

(** ** The handler *)

Section Properties.

Context {Time : Type}.
Variable zero_time : Time.
Variable parse_time : string -> option Time.

Implicit Types (w : World Time) (req : Request) (u : User Time).

(** ** How the calls of the handler run *)

Ltac run :=
  unfold connectDB, gorm_Open, initClient, LoadDefaultConfig, db_First,
         bind, log, ask, ret, logged;
  simpl.

Lemma connectDB_ok w :
  open_error w = None ->
  connectDB w = (Returns (inr tt), logged CallOpen w).
Proof. intros H. run. now rewrite H. Qed.

Lemma connectDB_fails w e :
  open_error w = Some e ->
  connectDB w
  = (Returns (inl ("error: failed to connect to AWS RDS: " +:+ e)), logged CallOpen w).
Proof. intros H. run. now rewrite H. Qed.

Lemma username_claim_ok req name w :
  caller req name -> username_claim req w = (Returns (Some name), w).
Proof.
  intros (a & Ha & Hl). unfold username_claim. now rewrite Ha, Hl.
Qed.

Lemma initClient_ok w :
  config_error w = None ->
  initClient w = (Returns (inr tt), logged CallLoadConfig w).
Proof. intros H. run. now rewrite H. Qed.

Lemma initClient_fails w e :
  config_error w = Some e ->
  initClient w = (Returns (inl e), logged CallLoadConfig w).
Proof. intros H. run. now rewrite H. Qed.

Lemma index_bearer req token w :
  bearer req token ->
  index (Strings.Split (authorization req) " ") 1 w = (Returns token, w).
Proof. intros (s & r & H). now rewrite H. Qed.

Lemma Client_GetUser_run token w :
  Client_GetUser token w = (Returns (GetUser w token), logged (CallGetUser token) w).
Proof. reflexivity. Qed.

Lemma db_First_found w name r :
  query_error w = None -> users w !! name = Some r ->
  db_First zero_time name w
  = (Returns (inr (scan zero_time name r)), logged (CallFirst name) w).
Proof.
  intros Hq Hr. run. now rewrite Hq, Hr.
Qed.

Lemma db_First_missing w name :
  query_error w = None -> users w !! name = None ->
  db_First zero_time name w
  = (Returns (inl ErrRecordNotFound), logged (CallFirst name) w).
Proof.
  intros Hq Hr. run. now rewrite Hq, Hr.
Qed.

Lemma db_First_fails w name e :
  query_error w = Some e ->
  db_First zero_time name w = (Returns (inl e), logged (CallFirst name) w).
Proof.
  intros Hq. run. now rewrite Hq.
Qed.

Lemma db_Save_ok w u :
  save_error w = None -> db_Save u w = (Returns None, saved u w).
Proof.
  intros H. unfold db_Save, put_users, saved. run. rewrite H. reflexivity.
Qed.

Lemma db_Save_fails w u e :
  save_error w = Some e -> db_Save u w = (Returns (Some e), logged (CallSave u) w).
Proof.
  intros H. unfold db_Save, put_users. run. rewrite H. reflexivity.
Qed.

(** ** Dispatch *)

(** C9: a request whose method is neither GET nor PUT is answered with
    status 405 and a body that names the method; the world is left as it
    was, so no call to the store or to the identity provider is made. *)
Theorem handler_method_not_allowed req w :
  Method (HTTP (RequestContext req)) <> "GET" ->
  Method (HTTP (RequestContext req)) <> "PUT" ->
  handler zero_time parse_time req w
  = (Returns (plain 405 ("HTTP method '" +:+ Method (HTTP (RequestContext req))
                                         +:+ "' not allowed"),
              None),
     w).
Proof.
  intros Hget Hput. unfold handler.
  destruct (String.eqb_spec (Method (HTTP (RequestContext req))) "GET") as [E|_];
    [contradiction|].
  destruct (String.eqb_spec (Method (HTTP (RequestContext req))) "PUT") as [E|_];
    [contradiction|].
  reflexivity.
Qed.

(** ** The error handed to the runtime *)

Lemma nil_error_ret (r : Response) : nil_error (Time := Time) (ret (r, None)).
Proof. intros w resp err H. now inversion H. Qed.

Lemma nil_error_panic msg : nil_error (Time := Time) (panic msg).
Proof. intros w resp err H. discriminate H. Qed.

Lemma nil_error_bind {A} (m : M Time A) k :
  (forall a, nil_error (k a)) -> nil_error (bind m k).
Proof.
  intros Hk w resp err. unfold bind.
  destruct (m w) as [[a|msg] w'].
  - apply Hk.
  - discriminate.
Qed.

Ltac nil_error_paths :=
  repeat first
    [ apply nil_error_ret
    | apply nil_error_panic
    | apply nil_error_bind; intros ?
    | match goal with
      | |- nil_error (match ?x with _ => _ end) => destruct x
      end ].

Lemma read_nil_error req : nil_error (read zero_time req).
Proof. unfold read, index, username_claim. nil_error_paths. Qed.

(** C10: when the connection to the database fails, [update] returns its
    500 response together with the error, and [read] returns the same
    response with a nil error; on every other path of [read] and of
    [update] the error returned is nil. *)
Theorem connection_failure_error_contracts req w :
  (forall e, open_error w = Some e ->
     let msg := "error: failed to connect to AWS RDS: " +:+ e in
     fst (update zero_time parse_time req w) = Returns (plain 500 msg, Some msg)
     /\ fst (read zero_time req w) = Returns (plain 500 msg, None))
  /\ (forall resp err,
        fst (read zero_time req w) = Returns (resp, err) -> err = None)
  /\ (forall resp err,
        open_error w = None ->
        fst (update zero_time parse_time req w) = Returns (resp, err) ->
        err = None).
Proof.
  split; [|split].
  - intros e He msg. unfold update, read, bind.
    rewrite (connectDB_fails _ _ He). split; reflexivity.
  - intros resp err. apply read_nil_error.
  - intros resp err Ho. unfold update. unfold bind at 1.
    rewrite (connectDB_ok _ Ho). cbv beta iota.
    unfold username_claim. nil_error_paths.
Qed.

(** ** The bearer token *)

Lemma Split_without_sep s sep :
  ~ In sep (list_ascii_of_string s) -> Strings.Split s sep = [s].
Proof.
  unfold Strings.Split. induction s as [|c s IH]; intros H; [reflexivity|].
  simpl in H. fold Strings.Split in *.
  destruct (Ascii.eqb_spec c sep) as [->|_].
  - exfalso. apply H. now left.
  - rewrite IH; [reflexivity|]. intros Hin. apply H. now right.
Qed.

Lemma read_panics_on_index req w name :
  open_error w = None ->
  caller req name ->
  config_error w = None ->
  nth_error (Strings.Split (authorization req) " ") 1 = None ->
  fst (read zero_time req w) = Panics "index out of range".
Proof.
  intros Ho Hc Hcfg Hn. unfold read. unfold bind at 1.
  rewrite (connectDB_ok _ Ho). cbv beta iota. unfold bind at 1.
  rewrite (username_claim_ok _ _ _ Hc). cbv beta iota. unfold bind at 1.
  rewrite initClient_ok by exact Hcfg. cbv beta iota. unfold bind at 1.
  fold (authorization req). unfold index. rewrite Hn. reflexivity.
Qed.

(** C2, as the code has it: a GET request that reaches the extraction of
    the token with an [authorization] header that holds no space (or
    with no such header) makes [read] panic on the index; no response
    is returned. *)
Theorem read_panics_without_space req w name :
  open_error w = None ->
  caller req name ->
  config_error w = None ->
  ~ In " "%char (list_ascii_of_string (authorization req)) ->
  fst (read zero_time req w) = Panics "index out of range".
Proof.
  intros Ho Hc Hcfg Hsp. apply (read_panics_on_index req w name Ho Hc Hcfg).
  now rewrite (Split_without_sep _ _ Hsp).
Qed.

(** ** The attributes of the identity provider *)

Lemma attribute_or_cons name a l d :
  attribute_or name (a :: l) d
  = attribute_or name l (if String.eqb (Name a) name then Value a else d).
Proof.
  unfold attribute_or. simpl rev.
  induction (rev l) as [|b r IH]; simpl.
  - now destruct (String.eqb (Name a) name).
  - destruct (String.eqb (Name b) name); [reflexivity|exact IH].
Qed.

Lemma fold_attribute_step l e n :
  fold_left attribute_step l (e, n)
  = (attribute_or "email" l e, attribute_or "nickname" l n).
Proof.
  revert e n. induction l as [|a l IH]; intros e n; [reflexivity|].
  simpl fold_left. rewrite !attribute_or_cons. unfold attribute_step.
  destruct (String.eqb_spec (Name a) "email") as [E|E].
  - rewrite IH. rewrite E. reflexivity.
  - destruct (String.eqb (Name a) "nickname"); apply IH.
Qed.

Lemma loop_over_attributes l :
  fold_left attribute_step l ("", "") = (attribute "email" l, attribute "nickname" l).
Proof. apply fold_attribute_step. Qed.

(** With distinct names, the value of an attribute is the value of the
    one attribute of that name. *)
Lemma attribute_unique l a :
  List.NoDup (map Name l) -> In a l -> attribute (Name a) l = Value a.
Proof.
  unfold attribute. generalize "". induction l as [|b l IH]; intros d Hnd Hin.
  - destruct Hin.
  - rewrite attribute_or_cons. inversion Hnd as [|? ? Hnotin Hnd']; subst.
    destruct Hin as [->|Hin].
    + rewrite String.eqb_refl. clear IH Hnd. unfold attribute_or.
      assert (H : forall x, In x (rev l) -> String.eqb (Name x) (Name a) = false).
      { intros x Hx. apply String.eqb_neq. intros E. apply Hnotin.
        rewrite <- E. apply in_map. now apply in_rev. }
      induction (rev l) as [|x r IHr]; [reflexivity|].
      simpl. rewrite (H x) by now left. apply IHr. intros y Hy. apply H. now right.
    + now apply IH.
Qed.

Lemma length_zero_iff (s : string) : (String.length s =? 0)%nat = true <-> s = "".
Proof. destruct s; simpl; split; intros H; congruence. Qed.

Lemma attribute_empty l name :
  (forall a, In a l -> Name a = name -> Value a = "") -> attribute name l = "".
Proof.
  intros H. unfold attribute, attribute_or.
  destruct (find _ (rev l)) as [a|] eqn:E; [|reflexivity].
  apply find_some in E. destruct E as [Hin Hn].
  apply H; [now apply in_rev | now apply String.eqb_eq].
Qed.

(** ** The two operations, once past their first checks *)

(** [read] from the call to the identity provider on. *)
Lemma read_from_provider req w name token :
  open_error w = None ->
  caller req name ->
  config_error w = None ->
  bearer req token ->
  let w1 := logged (CallGetUser token) (logged CallLoadConfig (logged CallOpen w)) in
  read zero_time req w
  = match GetUser w token with
    | inl err => (Returns (plain 500 err, None), w1)
    | inr cogInfo =>
      if (String.length (attribute "email" cogInfo) =? 0)%nat
      then (Returns (plain 500 "could not find user email", None), w1)
      else
        match db_First zero_time name w1 with
        | (Returns (inr user), w2) =>
          (Returns (mkResponse 200
                      (Json.HTMLEscape
                         (Json.Marshal [("username", name);
                                        ("nickname", attribute "nickname" cogInfo);
                                        ("email", attribute "email" cogInfo);
                                        ("bio", Bio user);
                                        ("profilePicture", ProfilePicture user)]))
                      {["Content-Type" := "application/json"]},
                    None), w2)
        | (_, w2) => (Returns (plain 404 "user not found", None), w2)
        end
    end.
Proof.
  intros Ho Hc Hcfg Hb w1. unfold read. unfold bind at 1.
  rewrite (connectDB_ok _ Ho). cbv beta iota. unfold bind at 1.
  rewrite (username_claim_ok _ _ _ Hc). cbv beta iota. unfold bind at 1.
  rewrite initClient_ok by exact Hcfg. cbv beta iota. unfold bind at 1.
  fold (authorization req). rewrite (index_bearer _ _ _ Hb). cbv beta iota.
  unfold bind at 1. rewrite Client_GetUser_run. cbv beta iota.
  change (GetUser (logged CallLoadConfig (logged CallOpen w)) token)
    with (GetUser w token).
  fold w1. destruct (GetUser w token) as [err|cogInfo]; [reflexivity|].
  rewrite loop_over_attributes.
  destruct (String.length (attribute "email" cogInfo) =? 0)%nat; [reflexivity|].
  unfold bind.
  destruct (db_First zero_time name w1) as [[[e|user]|msg] w2] eqn:E;
    try reflexivity.
  unfold db_First, bind, log, ask, ret in E.
  repeat match type of E with
         | context [match ?x with _ => _ end] => destruct x
         end; discriminate E.
Qed.

(** [update] from the lookup on. *)
Lemma update_from_lookup req w name :
  open_error w = None ->
  caller req name ->
  let w1 := logged (CallFirst name) (logged CallOpen w) in
  update zero_time parse_time req w
  = match query_error w, users w !! name with
    | None, Some r =>
      match Unmarshal parse_time (ReqBody req) (scan zero_time name r) with
      | (_, Some _) => (Returns (plain 400 "invalid request body", None), w1)
      | (user', None) =>
        match save_error w with
        | Some e => (Returns (plain 500 e, None), logged (CallSave user') w1)
        | None => (Returns (plain 200 "user updated successfully", None),
                   saved user' w1)
        end
      end
    | _, _ => (Returns (plain 404 "user not found", None), w1)
    end.
Proof.
  intros Ho Hc w1. unfold update. unfold bind at 1.
  rewrite (connectDB_ok _ Ho). cbv beta iota. unfold bind at 1.
  rewrite (username_claim_ok _ _ _ Hc). cbv beta iota. unfold bind at 1.
  destruct (query_error w) as [e|] eqn:Hq.
  - rewrite (db_First_fails (logged CallOpen w) name e Hq). reflexivity.
  - destruct (users w !! name) as [r|] eqn:Hr.
    + rewrite (db_First_found (logged CallOpen w) name r Hq Hr). cbv beta iota. fold w1.
      destruct (Unmarshal parse_time (ReqBody req) (scan zero_time name r))
        as [user' [e|]]; [reflexivity|].
      unfold bind at 1. destruct (save_error w) as [e|] eqn:Hs.
      * rewrite (db_Save_fails w1 user' e Hs). reflexivity.
      * rewrite (db_Save_ok w1 user' Hs). reflexivity.
    + rewrite (db_First_missing (logged CallOpen w) name Hq Hr). reflexivity.
Qed.

(** ** The patch *)

Lemma Unmarshal_invalid data u :
  Json.parse data = None -> Unmarshal parse_time data u = (u, Some SyntaxError).
Proof. intros H. unfold Unmarshal. now rewrite H. Qed.

Lemma set_field_string_frame f g s u :
  f <> g -> field_value g (set_field_string f s u) = field_value g u.
Proof. intros H. destruct f, g; try reflexivity; contradiction. Qed.

Lemma set_field_time_frame f g t u :
  f <> g -> field_value g (set_field_time f t u) = field_value g u.
Proof. intros H. destruct f, g; try reflexivity; contradiction. Qed.

(** Storing into one field leaves the others as they were, also when the
    value is refused. *)
Lemma store_frame f g v u saved :
  f <> g ->
  match store parse_time f v u saved with
  | Going u' _ | Stopped u' _ => field_value g u' = field_value g u
  end.
Proof.
  intros H. unfold store.
  destruct (is_time_field f), v; try reflexivity.
  - destruct (parse_time raw); [now apply set_field_time_frame|reflexivity].
  - now apply set_field_string_frame.
Qed.

Lemma decode_object_frame g ms u saved :
  (forall k v, In (k, v) ms -> find_field (Json.unquote k) <> Some g) ->
  field_value g (fst (decode_object parse_time ms u saved)) = field_value g u.
Proof.
  revert u saved. induction ms as [|[k v] ms IH]; intros u saved H; [reflexivity|].
  simpl decode_object.
  assert (Hms : forall k' v', In (k', v') ms -> find_field (Json.unquote k') <> Some g)
    by (intros k' v' Hin; apply (H k' v'); now right).
  destruct (find_field (Json.unquote k)) as [f|] eqn:Hf; [|now apply IH].
  assert (Hfg : f <> g).
  { intros ->. apply (H k v); [now left|exact Hf]. }
  pose proof (store_frame f g v u saved Hfg) as Hs.
  destruct (store parse_time f v u saved) as [u' saved'|u' err].
  - rewrite IH by exact Hms. exact Hs.
  - exact Hs.
Qed.

(** A field that the body does not name keeps its value through
    [json.Unmarshal], whatever the call returns. *)
Lemma Unmarshal_frame data u g :
  ~ present g data ->
  field_value g (fst (Unmarshal parse_time data u)) = field_value g u.
Proof.
  intros H. unfold Unmarshal.
  destruct (Json.parse data) as [v|] eqn:Hp; [|reflexivity].
  destruct v as [| | | | |ms]; try reflexivity.
  apply decode_object_frame. intros k v Hin Hf. apply H.
  exists ms, k, v. auto.
Qed.

Lemma Unmarshal_bio u :
  Unmarshal parse_time (Bytes.text "{'bio':'new bio'}") u
  = (set_field_string FBio "new bio" u, None).
Proof.
  unfold Unmarshal.
  replace (Json.parse (Bytes.text "{'bio':'new bio'}"))
    with (Some (Json.JObject [("bio", Json.JString "new bio")]))
    by (vm_compute; reflexivity).
  reflexivity.
Qed.

(** C6: an update whose body is [{"bio":"new bio"}], against a record
    that exists, persists a record whose bio is "new bio" and whose
    profile picture is the one it had; the other rows stay as they
    were.  In general the patch step, [json.Unmarshal] onto the loaded
    record, leaves every field that the body does not name as it was. *)
Theorem update_bio_leaves_the_rest req w name r :
  open_error w = None ->
  caller req name ->
  query_error w = None ->
  users w !! name = Some r ->
  save_error w = None ->
  ReqBody req = Bytes.text "{'bio':'new bio'}" ->
  (exists w' r',
      update zero_time parse_time req w
      = (Returns (plain 200 "user updated successfully", None), w')
      /\ users w' !! name = Some r'
      /\ bio r' = "new bio"
      /\ profile_picture r' = profile_picture r
      /\ created_at r' = created_at r
      /\ forall other, other <> name -> users w' !! other = users w !! other)
  /\ (forall data u f,
        ~ present f data ->
        field_value f (fst (Unmarshal parse_time data u)) = field_value f u).
Proof.
  intros Ho Hc Hq Hr Hs Hbody. split; [|intros data u f; apply Unmarshal_frame].
  rewrite (update_from_lookup req w name Ho Hc), Hq, Hr, Hbody, Unmarshal_bio, Hs.
  eexists. eexists. split; [reflexivity|]. simpl.
  split; [apply lookup_insert_eq|]. repeat split.
  intros other Hne. now apply lookup_insert_ne.
Qed.

(** ** Writes *)

Lemma writes_nothing_ret {A} (a : A) : writes_nothing (Time := Time) (ret a).
Proof. intros w. split; auto. Qed.

Lemma writes_nothing_panic {A} msg : writes_nothing (Time := Time) (A := A) (panic msg).
Proof. intros w. split; auto. Qed.

Lemma writes_nothing_bind {A B} (m : M Time A) (k : A -> M Time B) :
  writes_nothing m -> (forall a, writes_nothing (k a)) -> writes_nothing (bind m k).
Proof.
  intros Hm Hk w. unfold bind. specialize (Hm w).
  destruct (m w) as [[a|msg] w1]; simpl in Hm.
  - destruct (Hk a w1) as [Hu Hc]. destruct Hm as [Hu1 Hc1]. split.
    + congruence.
    + intros u Hin. auto.
  - exact Hm.
Qed.

Lemma writes_nothing_connectDB : writes_nothing (Time := Time) connectDB.
Proof.
  intros w. unfold connectDB, gorm_Open, bind, log, ask, ret. simpl.
  destruct (open_error w); simpl; split; try reflexivity;
    intros u [H|H]; (discriminate H || exact H).
Qed.

Lemma writes_nothing_db_First name : writes_nothing (db_First zero_time name).
Proof.
  intros w. unfold db_First, bind, log, ask, ret. simpl.
  split; try reflexivity. intros u [H|H]; (discriminate H || exact H).
Qed.

Lemma writes_nothing_username_claim req :
  writes_nothing (Time := Time) (username_claim req).
Proof.
  unfold username_claim. destruct (Authorizer (RequestContext req)).
  - apply writes_nothing_ret.
  - apply writes_nothing_panic.
Qed.

(** C7: an update whose body is not JSON writes nothing: the table is as
    it was and [Save] is not called, on every path.  When the request
    reaches the body, that is when the connection is made, the caller is
    known and the record exists, the response is status 400 with body
    "invalid request body". *)
Theorem update_rejects_malformed_body req w :
  Json.parse (ReqBody req) = None ->
  users (snd (update zero_time parse_time req w)) = users w
  /\ (forall u, In (CallSave u) (calls (snd (update zero_time parse_time req w))) ->
                In (CallSave u) (calls w))
  /\ (forall name r,
        open_error w = None ->
        caller req name ->
        query_error w = None ->
        users w !! name = Some r ->
        fst (update zero_time parse_time req w)
        = Returns (plain 400 "invalid request body", None)).
Proof.
  intros Hbad.
  assert (Hw : writes_nothing (update zero_time parse_time req)).
  { unfold update. apply writes_nothing_bind; [apply writes_nothing_connectDB|].
    intros [err|db]; [apply writes_nothing_ret|].
    apply writes_nothing_bind; [apply writes_nothing_username_claim|].
    intros [username|]; [|apply writes_nothing_ret].
    apply writes_nothing_bind; [apply writes_nothing_db_First|].
    intros [e|user]; [apply writes_nothing_ret|].
    rewrite (Unmarshal_invalid _ _ Hbad). apply writes_nothing_ret. }
  destruct (Hw w) as [Hu Hc]. split; [exact Hu|]. split; [exact Hc|].
  intros name r Ho Hcl Hq Hr.
  rewrite (update_from_lookup req w name Ho Hcl), Hq, Hr.
  rewrite (Unmarshal_invalid _ _ Hbad). reflexivity.
Qed.

(** A body that is JSON but does not decode into [User], such as a JSON
    string, is refused in the same way, before anything is written. *)
Lemma update_rejects_undecodable_body req w name r e :
  open_error w = None ->
  caller req name ->
  query_error w = None ->
  users w !! name = Some r ->
  snd (Unmarshal parse_time (ReqBody req) (scan zero_time name r)) = Some e ->
  update zero_time parse_time req w
  = (Returns (plain 400 "invalid request body", None),
     logged (CallFirst name) (logged CallOpen w)).
Proof.
  intros Ho Hc Hq Hr He.
  rewrite (update_from_lookup req w name Ho Hc), Hq, Hr.
  destruct (Unmarshal parse_time (ReqBody req) (scan zero_time name r)) as [u' o].
  simpl in He. now rewrite He.
Qed.

Lemma Unmarshal_json_string u :
  Unmarshal parse_time (Bytes.text "'not json'") u
  = (u, Some (UnmarshalTypeError "string" "User")).
Proof.
  unfold Unmarshal.
  replace (Json.parse (Bytes.text "'not json'"))
    with (Some (Json.JString "not json")) by (vm_compute; reflexivity).
  reflexivity.
Qed.

(** ** Reading a profile *)

(** C8: when the attributes returned by the identity provider hold no
    email, or only empty ones, [read] answers 500 "could not find user
    email", whatever the table holds and whether or not queries would
    fail: the store is not queried at all. *)
Theorem read_without_email req w name token attrs :
  open_error w = None ->
  caller req name ->
  config_error w = None ->
  bearer req token ->
  GetUser w token = inr attrs ->
  (forall a, In a attrs -> Name a = "email" -> Value a = "") ->
  forall t q,
    read zero_time req (with_store t q w)
    = (Returns (plain 500 "could not find user email", None),
       logged (CallGetUser token)
              (logged CallLoadConfig (logged CallOpen (with_store t q w)))).
Proof.
  intros Ho Hc Hcfg Hb Hg Hmail t q.
  rewrite (read_from_provider req (with_store t q w) name token Ho Hc Hcfg Hb).
  change (GetUser (with_store t q w) token) with (GetUser w token).
  rewrite Hg, (attribute_empty _ _ Hmail). reflexivity.
Qed.

(** C5: a GET request of a caller with a stored profile, with a token for
    which the identity provider returns attributes with an email that is
    not empty, is answered with status 200 and content type
    application/json.  The body is the marshalled map of the five entries
    username, nickname, email, bio and profilePicture, and it is a JSON
    object of exactly these five keys.  When the five values are
    well-formed UTF-8, the five members read back, keys and strings
    unquoted, as the values themselves: username, bio and profilePicture
    are those of the stored record, email and nickname those of the
    identity provider. *)
Theorem read_returns_merged_profile req w name token attrs r :
  open_error w = None ->
  caller req name ->
  config_error w = None ->
  bearer req token ->
  GetUser w token = inr attrs ->
  attribute "email" attrs <> "" ->
  query_error w = None ->
  users w !! name = Some r ->
  exists body,
    fst (read zero_time req w)
    = Returns (mkResponse 200 body {["Content-Type" := "application/json"]}, None)
    /\ body = Json.HTMLEscape
                (Json.Marshal [("username", name);
                               ("nickname", attribute "nickname" attrs);
                               ("email", attribute "email" attrs);
                               ("bio", bio r);
                               ("profilePicture", profile_picture r)])
    /\ Json.parse body
       = Some (Json.JObject
                 [("bio", Json.JString (Json.quote_from 0 (bio r)));
                  ("email", Json.JString (Json.quote_from 0 (attribute "email" attrs)));
                  ("nickname", Json.JString (Json.quote_from 0 (attribute "nickname" attrs)));
                  ("profilePicture", Json.JString (Json.quote_from 0 (profile_picture r)));
                  ("username", Json.JString (Json.quote_from 0 name))])
    /\ (well_formed 0 name ->
        well_formed 0 (attribute "nickname" attrs) ->
        well_formed 0 (attribute "email" attrs) ->
        well_formed 0 (bio r) ->
        well_formed 0 (profile_picture r) ->
        exists ms,
          Json.parse body = Some (Json.JObject ms)
          /\ map member_string ms
             = [Some ("bio", bio r);
                Some ("email", attribute "email" attrs);
                Some ("nickname", attribute "nickname" attrs);
                Some ("profilePicture", profile_picture r);
                Some ("username", name)]).
Proof.
  intros Ho Hc Hcfg Hb Hg Hmail Hq Hr.
  eexists. split; [|split; [reflexivity|split; [apply profile_parses|]]].
  - rewrite (read_from_provider req w name token Ho Hc Hcfg Hb), Hg.
    destruct (String.length (attribute "email" attrs) =? 0)%nat eqn:E.
    + apply length_zero_iff in E. contradiction.
    + rewrite (db_First_found (logged (CallGetUser token) (logged CallLoadConfig (logged CallOpen w))) name r Hq Hr).
      reflexivity.
  - intros W1 W2 W3 W4 W5. eexists. split; [apply profile_parses|].
    unfold member_string. cbn [map fst snd].
    rewrite !unquote_quote by assumption. reflexivity.
Qed.

(** When the five values are well-formed UTF-8, the strings of the body
    read back as the values themselves. *)
Lemma merged_profile_values (name nickname email b p : string) :
  well_formed 0 name -> well_formed 0 nickname -> well_formed 0 email ->
  well_formed 0 b -> well_formed 0 p ->
  map (fun kv => (Json.unquote (fst kv), Json.unquote (snd kv)))
      [("bio", Json.quote_from 0 b);
       ("email", Json.quote_from 0 email);
       ("nickname", Json.quote_from 0 nickname);
       ("profilePicture", Json.quote_from 0 p);
       ("username", Json.quote_from 0 name)]
  = [("bio", b); ("email", email); ("nickname", nickname); ("profilePicture", p);
     ("username", name)].
Proof.
  intros H1 H2 H3 H4 H5. cbn [map fst snd].
  rewrite !unquote_quote by assumption. reflexivity.
Qed.

(** ** The lookup *)

(** When the query does not fail, [update] answers 404 exactly when no
    row matches the username of the caller. *)
Lemma update_404_iff_no_record req w name :
  open_error w = None ->
  caller req name ->
  query_error w = None ->
  (exists resp err,
      fst (update zero_time parse_time req w) = Returns (resp, err)
      /\ StatusCode resp = 404)
  <-> users w !! name = None.
Proof.
  intros Ho Hc Hq. rewrite (update_from_lookup req w name Ho Hc), Hq.
  destruct (users w !! name) as [r|] eqn:Hr.
  - split; [|discriminate]. intros (resp & err & H & H404). exfalso.
    destruct (Unmarshal parse_time (ReqBody req) (scan zero_time name r))
      as [user' [e|]].
    + injection H as <- _. discriminate.
    + destruct (save_error w); injection H as <- _; discriminate.
  - split; [reflexivity|]. intros _. eexists. eexists. split; reflexivity.
Qed.

(** The same for [read], once the identity provider has returned an
    email. *)
Lemma read_404_iff_no_record req w name token attrs :
  open_error w = None ->
  caller req name ->
  config_error w = None ->
  bearer req token ->
  GetUser w token = inr attrs ->
  attribute "email" attrs <> "" ->
  query_error w = None ->
  (exists resp err,
      fst (read zero_time req w) = Returns (resp, err) /\ StatusCode resp = 404)
  <-> users w !! name = None.
Proof.
  intros Ho Hc Hcfg Hb Hg Hmail Hq.
  rewrite (read_from_provider req w name token Ho Hc Hcfg Hb), Hg.
  destruct (String.length (attribute "email" attrs) =? 0)%nat eqn:E.
  { apply length_zero_iff in E. contradiction. }
  destruct (users w !! name) as [r|] eqn:Hr.
  - rewrite (db_First_found
               (logged (CallGetUser token) (logged CallLoadConfig (logged CallOpen w)))
               name r Hq Hr).
    split; [|discriminate]. intros (resp & err & H & H404).
    injection H as <- _. discriminate.
  - rewrite (db_First_missing
               (logged (CallGetUser token) (logged CallLoadConfig (logged CallOpen w)))
               name Hq Hr).
    split; [reflexivity|]. intros _. eexists. eexists. split; reflexivity.
Qed.

(** C4, as the code has it: when the query fails for a reason other than
    a missing row, both operations answer 404 "user not found", though
    the record exists. *)
Theorem query_failure_answered_as_not_found req w name r e :
  open_error w = None ->
  caller req name ->
  users w !! name = Some r ->
  query_error w = Some e ->
  fst (update zero_time parse_time req w) = Returns (plain 404 "user not found", None)
  /\ forall token attrs,
      config_error w = None ->
      bearer req token ->
      GetUser w token = inr attrs ->
      attribute "email" attrs <> "" ->
      fst (read zero_time req w) = Returns (plain 404 "user not found", None).
Proof.
  intros Ho Hc Hr Hq. split.
  - rewrite (update_from_lookup req w name Ho Hc), Hq. reflexivity.
  - intros token attrs Hcfg Hb Hg Hmail.
    rewrite (read_from_provider req w name token Ho Hc Hcfg Hb), Hg.
    destruct (String.length (attribute "email" attrs) =? 0)%nat eqn:E.
    + apply length_zero_iff in E. contradiction.
    + rewrite (db_First_fails (logged (CallGetUser token) (logged CallLoadConfig (logged CallOpen w))) name e Hq).
      reflexivity.
Qed.

Lemma second_field (l : list string) x :
  nth_error l 1 = Some x -> exists a rest, l = a :: x :: rest.
Proof.
  destruct l as [|a [|b rest]]; simpl; intros H; try discriminate.
  injection H as ->. eauto.
Qed.

(** With a record stored, [read] never answers 404. *)
Lemma read_found_not_404 req w name r resp err :
  open_error w = None ->
  caller req name ->
  query_error w = None ->
  users w !! name = Some r ->
  fst (read zero_time req w) = Returns (resp, err) ->
  StatusCode resp <> 404.
Proof.
  intros Ho Hc Hq Hr.
  destruct (config_error w) as [e|] eqn:Hcfg.
  - unfold read. unfold bind at 1.
    rewrite (connectDB_ok _ Ho). cbv beta iota. unfold bind at 1.
    rewrite (username_claim_ok _ _ _ Hc). cbv beta iota. unfold bind at 1.
    rewrite (initClient_fails (logged CallOpen w) e Hcfg).
    intros H. injection H as <- _. discriminate.
  - destruct (nth_error (Strings.Split (authorization req) " ") 1)
      as [token|] eqn:Hn.
    + apply second_field in Hn.
      rewrite (read_from_provider req w name token Ho Hc Hcfg Hn).
      destruct (GetUser w token) as [e|attrs].
      * intros H. injection H as <- _. discriminate.
      * destruct (String.length (attribute "email" attrs) =? 0)%nat.
        -- intros H. injection H as <- _. discriminate.
        -- rewrite (db_First_found
                      (logged (CallGetUser token)
                              (logged CallLoadConfig (logged CallOpen w)))
                      name r Hq Hr).
           intros H. injection H as <- _. discriminate.
    + rewrite (read_panics_on_index req w name Ho Hc Hcfg Hn). discriminate.
Qed.

(** The lookup selects the row by username alone. *)
Lemma lookup_by_username_alone req w name r :
  open_error w = None ->
  caller req name ->
  query_error w = None ->
  users w !! name = Some r ->
  fst (db_First zero_time name w) = Returns (inr (scan zero_time name r))
  /\ (exists resp,
        fst (update zero_time parse_time req w) = Returns (resp, None)
        /\ StatusCode resp <> 404)
  /\ (forall resp err,
        fst (read zero_time req w) = Returns (resp, err) -> StatusCode resp <> 404).
Proof.
  intros Ho Hc Hq Hr. split; [|split].
  - now rewrite (db_First_found w name r Hq Hr).
  - rewrite (update_from_lookup req w name Ho Hc), Hq, Hr.
    destruct (Unmarshal parse_time (ReqBody req) (scan zero_time name r))
      as [user' [e|]].
    + eexists. split; [reflexivity|]. discriminate.
    + destruct (save_error w); eexists; (split; [reflexivity|]); discriminate.
  - intros resp err. now apply (read_found_not_404 req w name r).
Qed.

(** C3, amended: a stored record whose [deleted_at] is not null is
    returned by the lookup like any other; for its username, the query
    not failing, [update] returns a response that is not 404, [read]
    never answers 404, and [read] answers 200 when the identity provider
    returns an email. *)
Theorem lookup_ignores_deleted_at req w name r t :
  deleted_at r = Some t ->
  open_error w = None ->
  caller req name ->
  query_error w = None ->
  users w !! name = Some r ->
  fst (db_First zero_time name w) = Returns (inr (scan zero_time name r))
  /\ DeletedAt (scan zero_time name r) = t
  /\ (exists resp,
        fst (update zero_time parse_time req w) = Returns (resp, None)
        /\ StatusCode resp <> 404)
  /\ (forall resp err,
        fst (read zero_time req w) = Returns (resp, err) -> StatusCode resp <> 404)
  /\ (forall token attrs,
        config_error w = None ->
        bearer req token ->
        GetUser w token = inr attrs ->
        attribute "email" attrs <> "" ->
        exists body,
          fst (read zero_time req w)
          = Returns (mkResponse 200 body {["Content-Type" := "application/json"]},
                     None)).
Proof.
  intros Hd Ho Hc Hq Hr.
  destruct (lookup_by_username_alone req w name r Ho Hc Hq Hr) as (H1 & H2 & H3).
  split; [exact H1|]. split; [|split; [exact H2|split; [exact H3|]]].
  - unfold scan. simpl. now rewrite Hd.
  - intros token attrs Hcfg Hb Hg Hmail.
    rewrite (read_from_provider req w name token Ho Hc Hcfg Hb), Hg.
    destruct (String.length (attribute "email" attrs) =? 0)%nat eqn:E.
    + apply length_zero_iff in E. contradiction.
    + rewrite (db_First_found
                 (logged (CallGetUser token) (logged CallLoadConfig (logged CallOpen w)))
                 name r Hq Hr).
      eexists. reflexivity.
Qed.

(** ** The key of the record that is written *)

(** Keys that name [Username] for the decoder, and one that does not. *)
Example keys_of_Username :
  map find_field ["Username"; "username"; "USERNAME"; "userName"; "user_name"]
  = [Some FUsername; Some FUsername; Some FUsername; Some FUsername; None].
Proof. reflexivity. Qed.

Lemma Unmarshal_username u :
  Unmarshal parse_time (Bytes.text "{'username':'mallory'}") u
  = (set_field_string FUsername "mallory" u, None).
Proof.
  unfold Unmarshal.
  replace (Json.parse (Bytes.text "{'username':'mallory'}"))
    with (Some (Json.JObject [("username", Json.JString "mallory")]))
    by (vm_compute; reflexivity).
  reflexivity.
Qed.

(** C1, as the code has it: an update whose body is
    [{"username":"mallory"}] loads the record of the caller, overwrites
    its [Username] with the one of the body and saves it: the row
    written is the row of mallory, which receives the bio and the picture
    of the caller.  The username of the record that was loaded is not
    kept. *)
Theorem update_takes_username_from_body req w name r :
  open_error w = None ->
  caller req name ->
  query_error w = None ->
  users w !! name = Some r ->
  save_error w = None ->
  ReqBody req = Bytes.text "{'username':'mallory'}" ->
  exists w' u,
    update zero_time parse_time req w
    = (Returns (plain 200 "user updated successfully", None), w')
    /\ calls w' = CallSave u :: CallFirst name :: CallOpen :: calls w
    /\ Username u = "mallory"
    /\ users w' = <["mallory" := row_of (scan zero_time name r) (now w)]> (users w).
Proof.
  intros Ho Hc Hq Hr Hs Hbody.
  rewrite (update_from_lookup req w name Ho Hc), Hq, Hr, Hbody, Unmarshal_username, Hs.
  eexists. eexists. split; [reflexivity|]. repeat split.
Qed.

(** What does hold: when the body does not name [Username], the record
    handed to [Save] carries the username of the caller. *)
Lemma update_keeps_username_when_absent req w name r u :
  open_error w = None ->
  caller req name ->
  query_error w = None ->
  users w !! name = Some r ->
  ~ present FUsername (ReqBody req) ->
  In (CallSave u) (calls (snd (update zero_time parse_time req w))) ->
  In (CallSave u) (calls w) \/ Username u = name.
Proof.
  intros Ho Hc Hq Hr Habs.
  rewrite (update_from_lookup req w name Ho Hc), Hq, Hr.
  pose proof (Unmarshal_frame (ReqBody req) (scan zero_time name r) FUsername Habs) as Hf.
  destruct (Unmarshal parse_time (ReqBody req) (scan zero_time name r))
    as [user' [e|]]; simpl in Hf.
  - simpl. intros [H|[H|H]]; try discriminate H. now left.
  - injection Hf as Hf.
    destruct (save_error w); simpl;
      (intros [H|[H|[H|H]]]; try discriminate H; [right|now left]);
      injection H as <-; exact Hf.
Qed.

(** ** The operations on every input *)

(** [update], whatever the request and the world. *)
Lemma update_unfold req w :
  update zero_time parse_time req w
  = match open_error w with
    | Some e =>
      (Returns (plain 500 ("error: failed to connect to AWS RDS: " +:+ e),
                Some ("error: failed to connect to AWS RDS: " +:+ e)),
       logged CallOpen w)
    | None =>
      match Authorizer (RequestContext req) with
      | None => (Panics "invalid memory address or nil pointer dereference",
                 logged CallOpen w)
      | Some a =>
        match Lambda a !! "username" with
        | Some (AnyString name) =>
          let w1 := logged (CallFirst name) (logged CallOpen w) in
          match query_error w, users w !! name with
          | None, Some r =>
            match Unmarshal parse_time (ReqBody req) (scan zero_time name r) with
            | (_, Some _) => (Returns (plain 400 "invalid request body", None), w1)
            | (user', None) =>
              match save_error w with
              | Some e => (Returns (plain 500 e, None), logged (CallSave user') w1)
              | None => (Returns (plain 200 "user updated successfully", None),
                         saved user' w1)
              end
            end
          | _, _ => (Returns (plain 404 "user not found", None), w1)
          end
        | _ => (Returns (plain 500 "failed to parse username", None), logged CallOpen w)
        end
      end
    end.
Proof.
  destruct (open_error w) as [e|] eqn:Ho.
  { unfold update, bind. now rewrite (connectDB_fails _ _ Ho). }
  destruct (Authorizer (RequestContext req)) as [a|] eqn:Ha.
  - destruct (Lambda a !! "username") as [v|] eqn:Hl.
    + destruct v as [|b|lit|name];
        try (unfold update, bind, username_claim;
             rewrite (connectDB_ok _ Ho), Ha, Hl; reflexivity).
      apply update_from_lookup; [exact Ho|]. exists a. auto.
    + unfold update, bind, username_claim.
      rewrite (connectDB_ok _ Ho), Ha, Hl. reflexivity.
  - unfold update, bind, username_claim. rewrite (connectDB_ok _ Ho), Ha. reflexivity.
Qed.

(** [read], whatever the request and the world. *)
Lemma read_unfold req w :
  read zero_time req w
  = match open_error w with
    | Some e =>
      (Returns (plain 500 ("error: failed to connect to AWS RDS: " +:+ e), None),
       logged CallOpen w)
    | None =>
      match Authorizer (RequestContext req) with
      | None => (Panics "invalid memory address or nil pointer dereference",
                 logged CallOpen w)
      | Some a =>
        match Lambda a !! "username" with
        | Some (AnyString name) =>
          let w0 := logged CallLoadConfig (logged CallOpen w) in
          match config_error w with
          | Some e => (Returns (plain 500 e, None), w0)
          | None =>
            match nth_error (Strings.Split (authorization req) " ") 1 with
            | None => (Panics "index out of range", w0)
            | Some token =>
              let w1 := logged (CallGetUser token) w0 in
              match GetUser w token with
              | inl err => (Returns (plain 500 err, None), w1)
              | inr cogInfo =>
                if (String.length (attribute "email" cogInfo) =? 0)%nat
                then (Returns (plain 500 "could not find user email", None), w1)
                else
                  match db_First zero_time name w1 with
                  | (Returns (inr user), w2) =>
                    (Returns (mkResponse 200
                                (Json.HTMLEscape
                                   (Json.Marshal
                                      [("username", name);
                                       ("nickname", attribute "nickname" cogInfo);
                                       ("email", attribute "email" cogInfo);
                                       ("bio", Bio user);
                                       ("profilePicture", ProfilePicture user)]))
                                {["Content-Type" := "application/json"]},
                              None), w2)
                  | (_, w2) => (Returns (plain 404 "user not found", None), w2)
                  end
              end
            end
          end
        | _ => (Returns (plain 500 "failed to parse username", None), logged CallOpen w)
        end
      end
    end.
Proof.
  destruct (open_error w) as [e|] eqn:Ho.
  { unfold read, bind. now rewrite (connectDB_fails _ _ Ho). }
  destruct (Authorizer (RequestContext req)) as [a|] eqn:Ha.
  - destruct (Lambda a !! "username") as [v|] eqn:Hl.
    + destruct v as [|b|lit|name];
        try (unfold read, bind, username_claim;
             rewrite (connectDB_ok _ Ho), Ha, Hl; reflexivity).
      assert (Hc : caller req name) by (exists a; auto).
      destruct (config_error w) as [e|] eqn:Hcfg.
      * unfold read. unfold bind at 1.
        rewrite (connectDB_ok _ Ho). cbv beta iota. unfold bind at 1.
        rewrite (username_claim_ok _ _ _ Hc). cbv beta iota. unfold bind at 1.
        now rewrite (initClient_fails (logged CallOpen w) e Hcfg).
      * destruct (nth_error (Strings.Split (authorization req) " ") 1)
          as [token|] eqn:Hn.
        -- apply second_field in Hn.
           apply (read_from_provider req w name token Ho Hc Hcfg Hn).
        -- unfold read. unfold bind at 1.
           rewrite (connectDB_ok _ Ho). cbv beta iota. unfold bind at 1.
           rewrite (username_claim_ok _ _ _ Hc). cbv beta iota. unfold bind at 1.
           rewrite initClient_ok by exact Hcfg. cbv beta iota. unfold bind at 1.
           fold (authorization req). unfold index. rewrite Hn. reflexivity.
    + unfold read, bind, username_claim.
      rewrite (connectDB_ok _ Ho), Ha, Hl. reflexivity.
  - unfold read, bind, username_claim. rewrite (connectDB_ok _ Ho), Ha. reflexivity.
Qed.

Ltac cases :=
  repeat match goal with
         | |- context [match ?x with _ => _ end] => destruct x
         end.

Lemma read_status req w resp err :
  fst (read zero_time req w) = Returns (resp, err) ->
  (StatusCode resp = 200 /\ Headers resp = {["Content-Type" := "application/json"]})
  \/ ((StatusCode resp = 404 \/ StatusCode resp = 500) /\ Headers resp = ∅).
Proof.
  rewrite read_unfold. cbv zeta. cases; cbn [fst]; intros H; try discriminate H;
    injection H as <- _; cbn [StatusCode Headers plain]; auto.
Qed.

Lemma update_status req w resp err :
  fst (update zero_time parse_time req w) = Returns (resp, err) ->
  In (StatusCode resp) [200; 400; 404; 500] /\ Headers resp = ∅.
Proof.
  rewrite update_unfold. cbv zeta. cases; cbn [fst]; intros H; try discriminate H;
    injection H as <- _; cbn [StatusCode Headers plain In]; auto 10.
Qed.

(** ** Status codes *)

(** X1: a response of [read] has status 200, 404 or 500; it carries the
    JSON content type when the status is 200 and no header otherwise. *)
Theorem read_answers_200_404_500 req w resp err :
  fst (read zero_time req w) = Returns (resp, err) ->
  (StatusCode resp = 200 /\ Headers resp = {["Content-Type" := "application/json"]})
  \/ ((StatusCode resp = 404 \/ StatusCode resp = 500) /\ Headers resp = ∅).
Proof. apply read_status. Qed.

(** X2: a response of [update] has status 200, 400, 404 or 500 and
    carries no header. *)
Theorem update_answers_200_400_404_500 req w resp err :
  fst (update zero_time parse_time req w) = Returns (resp, err) ->
  In (StatusCode resp) [200; 400; 404; 500] /\ Headers resp = ∅.
Proof. apply update_status. Qed.

(** X3: [handler] answers 405 exactly when the method is neither GET nor
    PUT; the comparison is exact, byte for byte. *)
Theorem handler_405_iff req w :
  (exists resp err,
      fst (handler zero_time parse_time req w) = Returns (resp, err)
      /\ StatusCode resp = 405)
  <-> (Method (HTTP (RequestContext req)) <> "GET"
       /\ Method (HTTP (RequestContext req)) <> "PUT").
Proof.
  unfold handler.
  destruct (String.eqb_spec (Method (HTTP (RequestContext req))) "GET") as [E|E].
  { split.
    - intros (resp & err & H & H405). apply read_status in H.
      destruct H as [[H _]|[[H|H] _]]; rewrite H in H405; discriminate.
    - intros [H _]. contradiction. }
  destruct (String.eqb_spec (Method (HTTP (RequestContext req))) "PUT") as [E'|E'].
  { split.
    - intros (resp & err & H & H405). apply update_status in H.
      destruct H as [H _]. rewrite H405 in H. simpl in H.
      intuition discriminate.
    - intros [_ H]. contradiction. }
  split; [auto|]. intros _. eexists. eexists. split; reflexivity.
Qed.

(** ** Calls *)

(** X4: [read] never writes: the table is as it was, and the calls it
    makes are, in this order, the opening of the database, the loading of
    the configuration, one call to the identity provider and one query,
    or a beginning of this sequence. *)
Theorem read_never_writes req w :
  users (snd (read zero_time req w)) = users w
  /\ exists new token name,
      made new w (snd (read zero_time req w))
      /\ In new [[CallOpen];
                 [CallLoadConfig; CallOpen];
                 [CallGetUser token; CallLoadConfig; CallOpen];
                 [CallFirst name; CallGetUser token; CallLoadConfig; CallOpen]].
Proof using zero_time.
  clear parse_time.
  rewrite read_unfold. cbv zeta. unfold made, db_First, bind, log, ask, ret.
  cases; cbn [snd fst users calls logged]; (split; [reflexivity|]);
    first
      [ exists [CallOpen], "", ""; split; [reflexivity|]; simpl; tauto
      | exists [CallLoadConfig; CallOpen], "", ""; split; [reflexivity|]; simpl; tauto
      | eexists [CallGetUser _; CallLoadConfig; CallOpen], _, "";
        split; [reflexivity|]; simpl; tauto
      | eexists [CallFirst _; CallGetUser _; CallLoadConfig; CallOpen], _, _;
        split; [reflexivity|]; simpl; tauto ].
Qed.

(** X5: [update] never calls the identity provider: its calls are the
    opening of the database, one query and one [Save], in this order, or
    a beginning of this sequence; [Save] is called only after the query
    for the username of the caller. *)
Theorem update_calls_the_store_only req w :
  exists new name u,
    made new w (snd (update zero_time parse_time req w))
    /\ In new [[CallOpen];
               [CallFirst name; CallOpen];
               [CallSave u; CallFirst name; CallOpen]].
Proof.
  rewrite update_unfold. cbv zeta. unfold made.
  pose (u0 := mkUser zero_time zero_time zero_time "" "" "").
  cases; cbn [snd fst calls logged saved];
    first
      [ exists [CallOpen], "", u0; split; [reflexivity|]; simpl; tauto
      | eexists [CallFirst _; CallOpen], _, u0; split; [reflexivity|]; simpl; tauto
      | eexists [CallSave _; CallFirst _; CallOpen], _, _;
        split; [reflexivity|]; simpl; tauto ].
Qed.

(** ** Errors before the merge and before the patch *)

(** X6: when the claims of the authorizer hold no [username], or one that
    is not a string, [read] and [update] answer 500 "failed to parse
    username" right after opening the database: no query is made and the
    identity provider is not called. *)
Theorem missing_username_claim req w a :
  open_error w = None ->
  Authorizer (RequestContext req) = Some a ->
  (forall s, Lambda a !! "username" <> Some (AnyString s)) ->
  read zero_time req w
  = (Returns (plain 500 "failed to parse username", None), logged CallOpen w)
  /\ update zero_time parse_time req w
     = (Returns (plain 500 "failed to parse username", None), logged CallOpen w).
Proof.
  intros Ho Ha Hl. rewrite read_unfold, update_unfold, Ho, Ha.
  destruct (Lambda a !! "username") as [[| | |s]|] eqn:E; try (split; reflexivity).
  exfalso. now apply (Hl s).
Qed.

(** X7: when the identity provider refuses the token, [read] answers 500
    with the text of the provider's error, whatever the store holds; the
    store is not queried. *)
Theorem read_provider_failure req w name token e :
  open_error w = None ->
  caller req name ->
  config_error w = None ->
  bearer req token ->
  GetUser w token = inl e ->
  forall t q,
    read zero_time req (with_store t q w)
    = (Returns (plain 500 e, None),
       logged (CallGetUser token)
              (logged CallLoadConfig (logged CallOpen (with_store t q w)))).
Proof.
  intros Ho Hc Hcfg Hb Hg t q.
  rewrite (read_from_provider req (with_store t q w) name token Ho Hc Hcfg Hb).
  change (GetUser (with_store t q w) token) with (GetUser w token).
  now rewrite Hg.
Qed.

(** X8: when the configuration of the Cognito client cannot be loaded,
    [read] answers 500 with the text of that error before it looks at the
    [authorization] header: the header may be missing or malformed, and
    the identity provider is not called. *)
Theorem read_config_failure req w name e :
  open_error w = None ->
  caller req name ->
  config_error w = Some e ->
  read zero_time req w
  = (Returns (plain 500 e, None), logged CallLoadConfig (logged CallOpen w)).
Proof.
  intros Ho (a & Ha & Hl) Hcfg. now rewrite read_unfold, Ho, Ha, Hl, Hcfg.
Qed.

(** X9: [update] creates no record for a caller who has none: whatever the
    body, the answer is 404 "user not found", the table is as it was and
    [Save] is not called. *)
Theorem update_of_missing_record req w name :
  open_error w = None ->
  caller req name ->
  users w !! name = None ->
  update zero_time parse_time req w
  = (Returns (plain 404 "user not found", None),
     logged (CallFirst name) (logged CallOpen w)).
Proof.
  intros Ho Hc Hr. rewrite (update_from_lookup req w name Ho Hc), Hr.
  now destruct (query_error w).
Qed.

(** X10: when the store refuses the write, [update] answers 500 with the
    text of the store's error and the table is as it was. *)
Theorem update_save_failure req w name r u' e :
  open_error w = None ->
  caller req name ->
  query_error w = None ->
  users w !! name = Some r ->
  Unmarshal parse_time (ReqBody req) (scan zero_time name r) = (u', None) ->
  save_error w = Some e ->
  fst (update zero_time parse_time req w) = Returns (plain 500 e, None)
  /\ users (snd (update zero_time parse_time req w)) = users w.
Proof.
  intros Ho Hc Hq Hr Hu Hs.
  rewrite (update_from_lookup req w name Ho Hc), Hq, Hr, Hu, Hs. split; reflexivity.
Qed.


(** ** The patch, run on another record *)






(** ** Updates composed *)


(** X13: what [update] wrote, [read] returns: after an update answered
    200 whose body does not name [Username], a GET of the same caller is
    answered with the bio and the picture of the patched record. *)
Theorem read_after_update req req' w name r token attrs :
  open_error w = None ->
  caller req name ->
  query_error w = None ->
  users w !! name = Some r ->
  fst (update zero_time parse_time req w)
  = Returns (plain 200 "user updated successfully", None) ->
  ~ present FUsername (ReqBody req) ->
  caller req' name ->
  config_error w = None ->
  bearer req' token ->
  GetUser w token = inr attrs ->
  attribute "email" attrs <> "" ->
  let patched := fst (Unmarshal parse_time (ReqBody req) (scan zero_time name r)) in
  fst (read zero_time req' (snd (update zero_time parse_time req w)))
  = Returns (mkResponse 200
               (Json.HTMLEscape
                  (Json.Marshal [("username", name);
                                 ("nickname", attribute "nickname" attrs);
                                 ("email", attribute "email" attrs);
                                 ("bio", Bio patched);
                                 ("profilePicture", ProfilePicture patched)]))
               {["Content-Type" := "application/json"]},
             None).
Proof.
  intros Ho Hc Hq Hr H200 Habs Hc' Hcfg Hb Hg Hmail patched.
  pose proof (Unmarshal_frame (ReqBody req) (scan zero_time name r) FUsername Habs) as Hn.
  fold patched in Hn. simpl in Hn. injection Hn as Hn.
  revert H200. rewrite (update_from_lookup req w name Ho Hc), Hq, Hr.
  subst patched.
  destruct (Unmarshal parse_time (ReqBody req) (scan zero_time name r)) as [u' [e|]];
    [discriminate|].
  destruct (save_error w) as [e|]; [discriminate|]. intros _.
  cbn [fst snd] in *.
  set (w1 := saved u' (logged (CallFirst name) (logged CallOpen w))).
  rewrite (read_from_provider req' w1 name token Ho Hc' Hcfg Hb).
  change (GetUser w1 token) with (GetUser w token). rewrite Hg.
  destruct (String.length (attribute "email" attrs) =? 0)%nat eqn:E.
  { apply length_zero_iff in E. contradiction. }
  assert (Hrow : users w1 !! name = Some (row_of u' (now w))).
  { unfold w1. cbn [users saved]. rewrite Hn. apply lookup_insert_eq. }
  rewrite (db_First_found
             (logged (CallGetUser token) (logged CallLoadConfig (logged CallOpen w1)))
             name (row_of u' (now w)) Hq Hrow).
  reflexivity.
Qed.

(** ** Bodies *)

Lemma decode_object_unknown ms u saved :
  (forall k v, In (k, v) ms -> find_field (Json.unquote k) = None) ->
  decode_object parse_time ms u saved = (u, saved).
Proof.
  induction ms as [|[k v] ms IH]; intros H; [reflexivity|].
  simpl. rewrite (H k v) by now left.
  apply IH. intros k' v' Hin. apply (H k' v'). now right.
Qed.

(** X14: a body that is [null], or an object none of whose keys names a
    field of [User], is an empty patch: [update] answers 200 and saves the
    record as it was loaded, so the row keeps its bio, its picture and its
    creation time, and its [updated_at] becomes the time of the write. *)
Theorem update_with_empty_patch req w name r :
  open_error w = None ->
  caller req name ->
  query_error w = None ->
  users w !! name = Some r ->
  save_error w = None ->
  (Json.parse (ReqBody req) = Some Json.JNull
   \/ exists ms, Json.parse (ReqBody req) = Some (Json.JObject ms)
                 /\ forall k v, In (k, v) ms -> find_field (Json.unquote k) = None) ->
  exists r',
    fst (update zero_time parse_time req w)
    = Returns (plain 200 "user updated successfully", None)
    /\ users (snd (update zero_time parse_time req w)) !! name = Some r'
    /\ bio r' = bio r /\ profile_picture r' = profile_picture r
    /\ created_at r' = created_at r /\ updated_at r' = now w.
Proof.
  intros Ho Hc Hq Hr Hs Hbody.
  assert (Hu : Unmarshal parse_time (ReqBody req) (scan zero_time name r)
               = (scan zero_time name r, None)).
  { unfold Unmarshal. destruct Hbody as [->|(ms & -> & Hms)]; [reflexivity|].
    now apply decode_object_unknown. }
  rewrite (update_from_lookup req w name Ho Hc), Hq, Hr, Hu, Hs.
  eexists. split; [reflexivity|]. cbn [snd users saved Username scan].
  split; [apply lookup_insert_eq|]. repeat split.
Qed.

Lemma decode_object_saved ms :
  forall u saved e,
    saved = Some e -> snd (decode_object parse_time ms u saved) <> None.
Proof.
  induction ms as [|[k v] ms IH]; intros u saved e ->; [discriminate|].
  simpl. destruct (find_field (Json.unquote k)) as [f|]; [|now apply (IH u _ e)].
  destruct (store parse_time f v u (Some e)) as [u1 s1|u1 e1] eqn:Hs; [|discriminate].
  apply (IH u1 s1 e). revert Hs. unfold store.
  destruct (is_time_field f), v; try discriminate; try (now intros [= _ <-]).
  destruct (parse_time raw); [now intros [= _ <-]|discriminate].
Qed.

(** A member that names a field and whose value is neither a string nor
    [null] makes the decoding fail, wherever it stands in the object. *)
Lemma decode_object_ill_typed ms :
  forall u saved k v f,
    In (k, v) ms ->
    find_field (Json.unquote k) = Some f ->
    v <> Json.JNull ->
    (forall raw, v <> Json.JString raw) ->
    snd (decode_object parse_time ms u saved) <> None.
Proof.
  induction ms as [|[k0 v0] ms IH]; intros u saved k v f Hin Hf Hnull Hstr;
    [destruct Hin|].
  simpl. destruct Hin as [[= -> ->]|Hin].
  - rewrite Hf. unfold store.
    destruct (is_time_field f).
    + destruct v; try discriminate; try contradiction. exfalso. now apply (Hstr raw).
    + destruct v; try contradiction;
        try (destruct saved as [e|];
             [apply (decode_object_saved ms _ _ e); reflexivity
             |eapply decode_object_saved; reflexivity]).
      exfalso. now apply (Hstr raw).
  - destruct (find_field (Json.unquote k0)) as [f0|]; [|now apply (IH u saved k v f)].
    destruct (store parse_time f0 v0 u saved) as [u1 s1|u1 e1]; [|discriminate].
    now apply (IH u1 s1 k v f).
Qed.

(** X15: a body is refused as a whole: when one of its members names a
    field with a value that is neither a string nor [null], [update]
    answers 400 "invalid request body" and writes nothing, whatever the
    other members are. *)
Theorem update_refuses_ill_typed_member req w name r ms k v f :
  open_error w = None ->
  caller req name ->
  query_error w = None ->
  users w !! name = Some r ->
  Json.parse (ReqBody req) = Some (Json.JObject ms) ->
  In (k, v) ms ->
  find_field (Json.unquote k) = Some f ->
  v <> Json.JNull ->
  (forall raw, v <> Json.JString raw) ->
  update zero_time parse_time req w
  = (Returns (plain 400 "invalid request body", None),
     logged (CallFirst name) (logged CallOpen w)).
Proof.
  intros Ho Hc Hq Hr Hp Hin Hf Hnull Hstr.
  rewrite (update_from_lookup req w name Ho Hc), Hq, Hr.
  pose proof (decode_object_ill_typed ms (scan zero_time name r) None k v f
                Hin Hf Hnull Hstr) as He.
  unfold Unmarshal. rewrite Hp.
  destruct (decode_object parse_time ms (scan zero_time name r) None) as [u' [e|]];
    [reflexivity|]. now contradiction He.
Qed.

(** X16: a key of the body names a field exactly when it equals the Go
    name of the field up to case folding; the exact comparison that the
    decoder tries first never selects another field, and no key names two
    fields. *)
Theorem find_field_iff key f :
  find_field key = Some f <-> Json.foldName key = Json.foldName (field_name f).
Proof.
  unfold find_field, fields. cbn [List.find field_name]. split.
  - repeat (match goal with
            | |- context [String.eqb ?a ?b] => destruct (String.eqb_spec a b)
            end; cbv iota);
      intros H; first [discriminate H | injection H as <-; cbn [field_name]; congruence].
  - intros H. destruct f; cbn [field_name] in H;
      repeat (match goal with
              | |- context [String.eqb ?a ?b] => destruct (String.eqb_spec a b)
              end; cbv iota);
      first
        [ reflexivity
        | congruence
        | exfalso; subst key; vm_compute in H; discriminate H
        | exfalso;
          match goal with
          | e : Json.foldName _ = Json.foldName key |- _ =>
            rewrite H in e; vm_compute in e; discriminate e
          end ].
Qed.

(** ** The body of a profile *)

Lemma In_append c (a b : string) :
  In c (list_ascii_of_string (a +:+ b))
  <-> In c (list_ascii_of_string a) \/ In c (list_ascii_of_string b).
Proof using.
  clear parse_time zero_time.
  induction a as [|x a IH]; simpl.
  - tauto.
  - rewrite IH. tauto.
Qed.

Lemma HTMLEscape_cons c r :
  Json.HTMLEscape (String c r)
  = if Bytes.isb c 60 || Bytes.isb c 62 || Bytes.isb c 38
    then Json.u00 c +:+ Json.HTMLEscape r
    else match r with
         | String c1 (String c2 r2) =>
           if Bytes.isb c 226 && Bytes.isb c1 128 && (Bytes.isb c2 168 || Bytes.isb c2 169)
           then "\u202" +:+ String (Bytes.hex (Z.land (Bytes.code c2) 15))
                                   (Json.HTMLEscape r2)
           else String c (Json.HTMLEscape r)
         | _ => String c (Json.HTMLEscape r)
         end.
Proof. reflexivity. Qed.

(** [json.HTMLEscape] writes none of the bytes [<], [>] and [&]. *)
Lemma HTMLEscape_safe n :
  forall s c, (String.length s <= n)%nat ->
              In c (list_ascii_of_string (Json.HTMLEscape s)) ->
              ~ In (Bytes.code c) [60; 62; 38].
Proof using.
  clear parse_time zero_time.
  induction n as [|n IH]; intros s c Hlen Hin.
  { destruct s; [destruct Hin|simpl in Hlen; lia]. }
  destruct s as [|x r]; [destruct Hin|]. simpl in Hlen.
  rewrite HTMLEscape_cons in Hin.
  destruct (Bytes.isb x 60 || Bytes.isb x 62 || Bytes.isb x 38) eqn:Ex.
  - apply In_append in Hin. destruct Hin as [Hin|Hin]; [|apply (IH r); [lia|exact Hin]].
    apply orb_prop in Ex. destruct Ex as [Ex|Ex]; [apply orb_prop in Ex; destruct Ex as [Ex|Ex]|];
      unfold Bytes.isb in Ex; apply Z.eqb_eq in Ex; apply code_inj in Ex; subst x;
      vm_compute in Hin;
      repeat (destruct Hin as [<-|Hin]; [vm_compute; intuition discriminate|]);
      destruct Hin.
  - assert (Hx : ~ In (Bytes.code x) [60; 62; 38]).
    { revert Ex. simpl. bytes. }
    assert (Hcopy : In c (list_ascii_of_string (String x (Json.HTMLEscape r))) ->
                    ~ In (Bytes.code c) [60; 62; 38]).
    { intros [<-|H]; [exact Hx|]. apply (IH r); [lia|exact H]. }
    destruct r as [|c1 [|c2 r2]]; try (now apply Hcopy).
    destruct (Bytes.isb x 226 && Bytes.isb c1 128
              && (Bytes.isb c2 168 || Bytes.isb c2 169)) eqn:E; [|now apply Hcopy].
    apply andb_prop in E. destruct E as [_ E2].
    change ("\u202" +:+ String (Bytes.hex (Z.land (Bytes.code c2) 15)) (Json.HTMLEscape r2))
      with (String "\" (String "u" (String "2" (String "0" (String "2"
              (String (Bytes.hex (Z.land (Bytes.code c2) 15)) (Json.HTMLEscape r2)))))))
      in Hin.
    apply orb_prop in E2. unfold Bytes.isb in E2.
    destruct E2 as [E2|E2]; apply Z.eqb_eq in E2; rewrite E2 in Hin;
      cbn [list_ascii_of_string] in Hin;
      do 6 (destruct Hin as [<-|Hin]; [vm_compute; intuition discriminate|]);
      (apply (IH r2); [simpl in Hlen; lia|exact Hin]).
Qed.

Lemma HTMLEscape_members x l t :
  Json.HTMLEscape (Json.join "," (map Json.member_text (x :: l)) +:+ t)
  = Json.join "," (map Json.member_text (x :: l)) +:+ Json.HTMLEscape t.
Proof using.
  clear parse_time zero_time.
  revert x. induction l as [|y l IH]; intros x.
  - cbn [map Json.join]. unfold Json.member_text.
    rewrite !append_assoc, HTMLEscape_quote.
    change (":" +:+ Json.quote (snd x) +:+ t) with (String ":" (Json.quote (snd x) +:+ t)).
    rewrite HTMLEscape_other by (vm_compute; intuition discriminate).
    now rewrite HTMLEscape_quote.
  - change (Json.join "," (map Json.member_text (x :: y :: l)))
      with (Json.member_text x +:+ "," +:+ Json.join "," (map Json.member_text (y :: l))).
    unfold Json.member_text at 1 3.
    rewrite !append_assoc, HTMLEscape_quote.
    change (":" +:+ Json.quote (snd x) +:+ "," +:+
            Json.join "," (map Json.member_text (y :: l)) +:+ t)
      with (String ":" (Json.quote (snd x) +:+ String ","
              (Json.join "," (map Json.member_text (y :: l)) +:+ t))).
    rewrite HTMLEscape_other by (vm_compute; intuition discriminate).
    rewrite HTMLEscape_quote.
    rewrite HTMLEscape_other by (vm_compute; intuition discriminate).
    now rewrite IH.
Qed.

(** [json.HTMLEscape] changes nothing in a marshalled map of strings:
    [json.Marshal] has escaped what it would escape. *)
Lemma HTMLEscape_Marshal entries :
  Json.HTMLEscape (Json.Marshal entries) = Json.Marshal entries.
Proof using.
  clear parse_time zero_time.
  unfold Json.Marshal.
  change ("{" +:+ Json.join "," (map Json.member_text (Json.sort_keys entries)) +:+ "}")
    with (String "{" (Json.join "," (map Json.member_text (Json.sort_keys entries)) +:+ "}")).
  rewrite HTMLEscape_other by (vm_compute; intuition discriminate).
  destruct (Json.sort_keys entries) as [|x l]; [reflexivity|].
  now rewrite HTMLEscape_members.
Qed.

Lemma read_200 req w resp err :
  fst (read zero_time req w) = Returns (resp, err) ->
  StatusCode resp = 200 ->
  exists name nickname email b p,
    Body resp = Json.HTMLEscape
                  (Json.Marshal [("username", name); ("nickname", nickname);
                                 ("email", email); ("bio", b); ("profilePicture", p)]).
Proof.
  rewrite read_unfold. cbv zeta. cases; cbn [fst]; intros H; try discriminate H;
    injection H as <- _; cbn [StatusCode Body plain]; intros H200;
    try discriminate H200.
  eexists _, _, _, _, _. reflexivity.
Qed.

(** X17: the body of a 200 response of [read] holds none of the bytes
    [<], [>] and [&], whatever the stored profile and the attributes of
    the identity provider are. *)
Theorem read_body_has_no_html_bytes req w resp err c :
  fst (read zero_time req w) = Returns (resp, err) ->
  StatusCode resp = 200 ->
  In c (list_ascii_of_string (Body resp)) ->
  ~ In (Bytes.code c) [60; 62; 38].
Proof using zero_time.
  clear parse_time.
  intros H H200 Hin.
  destruct (read_200 req w resp err H H200) as (name & nickname & email & b & p & E).
  rewrite E in Hin. eapply HTMLEscape_safe; [reflexivity|exact Hin].
Qed.

(** X18: the call of [json.HTMLEscape] changes nothing: the body of a 200
    response of [read] is the text [json.Marshal] returned. *)
Theorem read_body_is_the_marshalled_text req w name token attrs r :
  open_error w = None ->
  caller req name ->
  config_error w = None ->
  bearer req token ->
  GetUser w token = inr attrs ->
  attribute "email" attrs <> "" ->
  query_error w = None ->
  users w !! name = Some r ->
  exists resp,
    fst (read zero_time req w) = Returns (resp, None)
    /\ Body resp = Json.Marshal [("username", name);
                                 ("nickname", attribute "nickname" attrs);
                                 ("email", attribute "email" attrs);
                                 ("bio", bio r);
                                 ("profilePicture", profile_picture r)].
Proof using zero_time.
  clear parse_time.
  intros Ho Hc Hcfg Hb Hg Hmail Hq Hr.
  rewrite (read_from_provider req w name token Ho Hc Hcfg Hb), Hg.
  destruct (String.length (attribute "email" attrs) =? 0)%nat eqn:E.
  { apply length_zero_iff in E. contradiction. }
  rewrite (db_First_found
             (logged (CallGetUser token) (logged CallLoadConfig (logged CallOpen w)))
             name r Hq Hr).
  eexists. split; [reflexivity|]. cbn [Body]. apply HTMLEscape_Marshal.
Qed.

(** X19: the body of a profile reads back: when the five values are
    well-formed UTF-8, the body parses as a JSON object whose five
    members, keys and strings unquoted, are the values [read] merged. *)
Theorem read_body_reads_back req w name token attrs r :
  open_error w = None ->
  caller req name ->
  config_error w = None ->
  bearer req token ->
  GetUser w token = inr attrs ->
  attribute "email" attrs <> "" ->
  query_error w = None ->
  users w !! name = Some r ->
  well_formed 0 name ->
  well_formed 0 (attribute "nickname" attrs) ->
  well_formed 0 (attribute "email" attrs) ->
  well_formed 0 (bio r) ->
  well_formed 0 (profile_picture r) ->
  exists resp ms,
    fst (read zero_time req w) = Returns (resp, None)
    /\ Json.parse (Body resp) = Some (Json.JObject ms)
    /\ map member_string ms
       = [Some ("bio", bio r);
          Some ("email", attribute "email" attrs);
          Some ("nickname", attribute "nickname" attrs);
          Some ("profilePicture", profile_picture r);
          Some ("username", name)].
Proof.
  intros Ho Hc Hcfg Hb Hg Hmail Hq Hr W1 W2 W3 W4 W5.
  rewrite (read_from_provider req w name token Ho Hc Hcfg Hb), Hg.
  destruct (String.length (attribute "email" attrs) =? 0)%nat eqn:E.
  { apply length_zero_iff in E. contradiction. }
  rewrite (db_First_found
             (logged (CallGetUser token) (logged CallLoadConfig (logged CallOpen w)))
             name r Hq Hr).
  eexists. eexists. split; [reflexivity|]. cbn [Body].
  split; [apply profile_parses|].
  unfold member_string. cbn [map fst snd scan Bio ProfilePicture].
  rewrite !unquote_quote by assumption. reflexivity.
Qed.

(** ** The token and the attributes *)

Lemma Split_cons c r sep :
  Strings.Split (String c r) sep
  = if Ascii.eqb c sep then EmptyString :: Strings.Split r sep
    else match Strings.Split r sep with
         | f :: fs => String c f :: fs
         | [] => [String c EmptyString]
         end.
Proof. reflexivity. Qed.

Lemma Split_first a b :
  spaceless a ->
  Strings.Split (a +:+ String " " b) " " = a :: Strings.Split b " ".
Proof.
  unfold spaceless. induction a as [|c a IH]; intros H.
  - reflexivity.
  - change (String c a +:+ String " " b) with (String c (a +:+ String " " b)).
    rewrite Split_cons.
    destruct (Ascii.eqb_spec c " ") as [->|_]; [exfalso; apply H; now left|].
    rewrite IH; [reflexivity|]. intros Hin. apply H. now right.
Qed.

Lemma append_empty (s : string) : s +:+ "" = s.
Proof.
  induction s as [|c s IH]; [reflexivity|].
  change (String c (s +:+ "") = String c s). now rewrite IH.
Qed.

Lemma bearer_second_field req scheme token tail :
  spaceless scheme ->
  spaceless token ->
  authorization req = scheme +:+ String " " (token +:+ tail) ->
  tail = "" \/ (exists t, tail = String " " t) ->
  bearer req token.
Proof.
  intros Hs Ht Hh Htail. unfold bearer. rewrite Hh, (Split_first _ _ Hs).
  destruct Htail as [->|(t & ->)].
  - exists scheme, []. rewrite append_empty. f_equal. now apply Split_without_sep.
  - exists scheme, (Strings.Split t " "). now rewrite (Split_first _ _ Ht).
Qed.

(** X20: the token [read] hands to the identity provider is the second
    field of the [authorization] header: the text between the first space
    and the next one, or the end; what follows a second space is ignored.
    The provider is asked once, about this token. *)
Theorem read_asks_about_the_second_field req w name scheme token tail :
  open_error w = None ->
  caller req name ->
  config_error w = None ->
  spaceless scheme ->
  spaceless token ->
  authorization req = scheme +:+ String " " (token +:+ tail) ->
  tail = "" \/ (exists t, tail = String " " t) ->
  exists new,
    made new w (snd (read zero_time req w))
    /\ In (CallGetUser token) new
    /\ forall t', In (CallGetUser t') new -> t' = token.
Proof using zero_time.
  clear parse_time.
  intros Ho Hc Hcfg Hs Ht Hh Htail.
  pose proof (bearer_second_field req scheme token tail Hs Ht Hh Htail) as Hb.
  rewrite (read_from_provider req w name token Ho Hc Hcfg Hb).
  unfold made, db_First, bind, log, ask, ret.
  cases; cbn [snd calls logged];
    first
      [ exists [CallGetUser token; CallLoadConfig; CallOpen]; split; [reflexivity|]
      | exists [CallFirst name; CallGetUser token; CallLoadConfig; CallOpen];
        split; [reflexivity|] ];
    (split; [simpl; tauto|]);
    intros t' Hin; simpl in Hin;
    repeat (destruct Hin as [Hin|Hin]; [try discriminate Hin; now injection Hin|]);
    destruct Hin.
Qed.

Lemma attribute_permutation name l l' :
  Permutation l l' ->
  List.NoDup (map Name l) ->
  attribute name l' = attribute name l.
Proof.
  intros Hp Hnd.
  assert (Hnd' : List.NoDup (map Name l')).
  { eapply Permutation_NoDup; [|exact Hnd]. now apply Permutation_map. }
  destruct (find (fun a => String.eqb (Name a) name) l) as [a|] eqn:E.
  - apply find_some in E. destruct E as [Hin Hn]. apply String.eqb_eq in Hn. subst name.
    rewrite (attribute_unique l a Hnd Hin).
    apply (attribute_unique l' a Hnd'). eapply Permutation_in; eassumption.
  - assert (Hnone : forall x, In x l -> Name x <> name).
    { intros x Hx. apply String.eqb_neq. exact (find_none _ _ E x Hx). }
    rewrite !attribute_empty; [reflexivity| |].
    + intros x Hx Hn. exfalso. now apply (Hnone x).
    + intros x Hx Hn. exfalso. apply (Hnone x); [|exact Hn].
      eapply Permutation_in; [apply Permutation_sym|]; eassumption.
Qed.

(** X21: when the names of the attributes are distinct, the email and the
    nickname that the loop over the attributes finds do not depend on the
    order in which the identity provider lists them. *)
Theorem attributes_in_any_order l l' :
  Permutation l l' ->
  List.NoDup (map Name l) ->
  fold_left attribute_step l' ("", "") = fold_left attribute_step l ("", "").
Proof.
  intros Hp Hnd. rewrite !loop_over_attributes.
  now rewrite !(attribute_permutation _ l l' Hp Hnd).
Qed.

(** ** A field named twice *)

Lemma decode_object_app ms ms2 :
  forall u saved u',
    decode_object parse_time (ms ++ ms2) u saved = (u', None) ->
    exists u1,
      decode_object parse_time ms u saved = (u1, None)
      /\ decode_object parse_time ms2 u1 None = (u', None).
Proof.
  induction ms as [|[k v] ms IH]; intros u saved u' H.
  - simpl in H. exists u.
    destruct saved as [e|].
    + exfalso. pose proof (decode_object_saved ms2 u (Some e) e eq_refl) as Hne.
      rewrite H in Hne. now apply Hne.
    + split; [reflexivity|exact H].
  - simpl in H. simpl decode_object.
    destruct (find_field (Json.unquote k)) as [f|]; [|now apply IH].
    destruct (store parse_time f v u saved) as [u1 s1|u1 e1]; [|discriminate H].
    now apply IH.
Qed.

(** X22: in a body that [update] accepts, the last member that names a
    string field decides its value: members that name the field earlier
    are overwritten, duplicates are no error. *)
Theorem last_member_decides data u u' ms k raw ms' f :
  Unmarshal parse_time data u = (u', None) ->
  Json.parse data = Some (Json.JObject (ms ++ (k, Json.JString raw) :: ms')) ->
  find_field (Json.unquote k) = Some f ->
  is_time_field f = false ->
  (forall k' v', In (k', v') ms' -> find_field (Json.unquote k') <> Some f) ->
  field_value f u' = inr (Json.unquote raw).
Proof.
  unfold Unmarshal. intros H Hp Hf Ht Hlast. rewrite Hp in H.
  destruct (decode_object_app ms _ u None u' H) as (u1 & _ & H2).
  simpl in H2. rewrite Hf in H2. unfold store in H2. rewrite Ht in H2.
  pose proof (decode_object_frame f ms' (set_field_string f (Json.unquote raw) u1)
                                  None Hlast) as Hfr.
  rewrite H2 in Hfr. cbn [fst] in Hfr. rewrite Hfr.
  destruct f; try discriminate Ht; reflexivity.
Qed.

End Properties.

(** * The properties in the sample world *)

Lemma sample_caller method header body :
  caller (Sample.request method header body) "alice".
Proof. eexists. split; reflexivity. Defined.

Lemma sample_bearer body : bearer (Sample.request "GET" "Bearer tok" body) "tok".
Proof. exists "Bearer", []. reflexivity. Defined.

Lemma sample_bearer_anon body : bearer (Sample.request "GET" "Bearer anon" body) "anon".
Proof. exists "Bearer", []. reflexivity. Defined.

(** Alice sends the username of mallory: the row of mallory is created
    from the record of alice. *)
Lemma update_takes_username_from_body_witness :
  exists w' u,
    update 0 Sample.no_times
           (Sample.request "PUT" "Bearer tok" (Bytes.text "{'username':'mallory'}"))
           Sample.world
    = (Returns (plain 200 "user updated successfully", None), w')
    /\ calls w' = CallSave u :: CallFirst "alice" :: CallOpen :: calls Sample.world
    /\ Username u = "mallory"
    /\ users w' = <["mallory" := row_of (scan 0 "alice" Sample.alice_row) (now Sample.world)]>
                    (users Sample.world).
Proof.
  apply (update_takes_username_from_body 0 Sample.no_times _ Sample.world "alice"
           Sample.alice_row); try reflexivity.
  apply sample_caller.
Defined.

(** A header with the token alone. *)
Lemma read_panics_without_space_witness :
  fst (read 0 (Sample.request "GET" "tok" "") Sample.world)
  = Panics "index out of range".
Proof.
  apply (read_panics_without_space 0 _ Sample.world "alice"); try reflexivity.
  - apply sample_caller.
  - vm_compute. intros [H|[H|[H|[]]]]; discriminate H.
Defined.

(** C3, as stated, fails: the row of alice carries a deletion time, the
    lookup returns it, and both operations answer 200. *)
Lemma soft_deleted_record_is_served :
  (exists r t, users Sample.world_deleted !! "alice" = Some r /\ deleted_at r = Some t)
  /\ fst (db_First 0 "alice" Sample.world_deleted)
     = Returns (inr (mkUser 100 150 180 "alice" "hello" "pic.png"))
  /\ fst (Sample.run (Sample.request "GET" "Bearer tok" "") Sample.world_deleted)
     = Returns (mkResponse 200
                  (Bytes.text "{'bio':'hello','email':'alice@example.com','nickname':'Al','profilePicture':'pic.png','username':'alice'}")
                  {["Content-Type" := "application/json"]},
                None)
  /\ fst (Sample.run (Sample.request "PUT" "Bearer tok" (Bytes.text "{'bio':'back'}"))
                     Sample.world_deleted)
     = Returns (plain 200 "user updated successfully", None).
Proof.
  split; [|split; [|split]].
  - eexists. eexists. split; reflexivity.
  - reflexivity.
  - vm_compute. reflexivity.
  - vm_compute. reflexivity.
Qed.

Lemma lookup_ignores_deleted_at_witness :
  fst (db_First 0 "alice" Sample.world_deleted)
  = Returns (inr (scan 0 "alice" (mkRow 100 150 (Some 180) "hello" "pic.png")))
  /\ (exists resp,
        fst (update 0 Sample.no_times (Sample.request "GET" "Bearer tok" "{}")
                    Sample.world_deleted)
        = Returns (resp, None)
        /\ StatusCode resp <> 404)
  /\ (exists body,
        fst (read 0 (Sample.request "GET" "Bearer tok" "{}") Sample.world_deleted)
        = Returns (mkResponse 200 body {["Content-Type" := "application/json"]}, None)).
Proof.
  destruct (lookup_ignores_deleted_at 0 Sample.no_times
              (Sample.request "GET" "Bearer tok" "{}") Sample.world_deleted "alice"
              (mkRow 100 150 (Some 180) "hello" "pic.png") 180
              eq_refl eq_refl (sample_caller _ _ _) eq_refl eq_refl)
    as (H1 & _ & H3 & _ & H5).
  split; [exact H1|]. split; [exact H3|].
  apply (H5 "tok" [mkAttribute "sub" "123";
                   mkAttribute "email" "alice@example.com";
                   mkAttribute "nickname" "Al"]); try reflexivity.
  - apply sample_bearer.
  - vm_compute. discriminate.
Defined.

(** A table that is missing: the record of alice is "not found". *)
Lemma query_failure_answered_as_not_found_witness :
  fst (update 0 Sample.no_times (Sample.request "GET" "Bearer tok" "{}")
              Sample.world_query_fails)
  = Returns (plain 404 "user not found", None)
  /\ fst (read 0 (Sample.request "GET" "Bearer tok" "{}") Sample.world_query_fails)
     = Returns (plain 404 "user not found", None).
Proof.
  destruct (query_failure_answered_as_not_found 0 Sample.no_times
              (Sample.request "GET" "Bearer tok" "{}") Sample.world_query_fails
              "alice" Sample.alice_row
              "Error 1146: Table 'trill.users' doesn't exist"
              eq_refl (sample_caller _ _ _) eq_refl eq_refl) as [Hu Hr].
  split; [exact Hu|].
  apply (Hr "tok" [mkAttribute "sub" "123";
                   mkAttribute "email" "alice@example.com";
                   mkAttribute "nickname" "Al"]); try reflexivity.
  - apply sample_bearer.
  - vm_compute. discriminate.
Defined.

Lemma read_returns_merged_profile_witness :
  exists body ms,
    fst (read 0 (Sample.request "GET" "Bearer tok" "") Cases.world_markup)
    = Returns (mkResponse 200 body {["Content-Type" := "application/json"]}, None)
    /\ body = Bytes.text "{'bio':'say \'hi\' to \u003cb\u003eAl \u0026 co\u003c/b\u003e','email':'alice@example.com','nickname':'Al','profilePicture':'pic.png','username':'alice'}"
    /\ Json.parse body = Some (Json.JObject ms)
    /\ map member_string ms
       = [Some ("bio", Bytes.text "say 'hi' to <b>Al & co</b>");
          Some ("email", "alice@example.com");
          Some ("nickname", "Al");
          Some ("profilePicture", "pic.png");
          Some ("username", "alice")].
Proof.
  destruct (read_returns_merged_profile 0 (Sample.request "GET" "Bearer tok" "")
              Cases.world_markup "alice" "tok"
              Cases.attributes_of_alice
              Cases.row_with_markup
              eq_refl (sample_caller _ _ _) eq_refl (sample_bearer _) eq_refl
              ltac:(vm_compute; discriminate) eq_refl eq_refl)
    as (body & Hread & Hbody & _ & Hvalues).
  destruct (Hvalues ltac:(vm_compute; reflexivity) ltac:(vm_compute; reflexivity)
                    ltac:(vm_compute; reflexivity) ltac:(vm_compute; reflexivity)
                    ltac:(vm_compute; reflexivity))
    as (ms & Hparse & Hms).
  exists body, ms. split; [exact Hread|]. split; [|split; [exact Hparse|exact Hms]].
  rewrite Hbody. vm_compute. reflexivity.
Defined.

(** The body of that response is a JSON object of five members. *)
Example merged_profile_parses :
  match fst (read 0 (Sample.request "GET" "Bearer tok" "") Sample.world) with
  | Returns (resp, _) =>
    Json.parse (Body resp)
    = Some (Json.JObject [("bio", Json.JString "hello");
                          ("email", Json.JString "alice@example.com");
                          ("nickname", Json.JString "Al");
                          ("profilePicture", Json.JString "pic.png");
                          ("username", Json.JString "alice")])
  | Panics _ => False
  end.
Proof. vm_compute. reflexivity. Qed.

Lemma update_bio_leaves_the_rest_witness :
  exists w' r',
    update 0 Sample.no_times
           (Sample.request "PUT" "Bearer tok" (Bytes.text "{'bio':'new bio'}"))
           Sample.world
    = (Returns (plain 200 "user updated successfully", None), w')
    /\ users w' !! "alice" = Some r'
    /\ bio r' = "new bio"
    /\ profile_picture r' = "pic.png".
Proof.
  destruct (update_bio_leaves_the_rest 0 Sample.no_times
              (Sample.request "PUT" "Bearer tok" (Bytes.text "{'bio':'new bio'}"))
              Sample.world "alice" Sample.alice_row
              eq_refl (sample_caller _ _ _) eq_refl eq_refl eq_refl eq_refl)
    as [(w' & r' & H1 & H2 & H3 & H4 & _) _].
  exists w', r'. auto.
Defined.

Lemma update_rejects_malformed_body_witness :
  users (snd (update 0 Sample.no_times (Sample.request "PUT" "Bearer tok" "not json")
                     Sample.world))
  = users Sample.world
  /\ fst (update 0 Sample.no_times (Sample.request "PUT" "Bearer tok" "not json")
                 Sample.world)
     = Returns (plain 400 "invalid request body", None).
Proof.
  destruct (update_rejects_malformed_body 0 Sample.no_times
              (Sample.request "PUT" "Bearer tok" "not json") Sample.world eq_refl)
    as (Hu & _ & Hr).
  split; [exact Hu|].
  apply (Hr "alice" Sample.alice_row); try reflexivity.
  apply sample_caller.
Defined.

(** The token of a user without an email, against an empty table. *)
Lemma read_without_email_witness :
  read 0 (Sample.request "GET" "Bearer anon" "") (with_store ∅ None Sample.world)
  = (Returns (plain 500 "could not find user email", None),
     logged (CallGetUser "anon")
            (logged CallLoadConfig (logged CallOpen (with_store ∅ None Sample.world)))).
Proof.
  apply (read_without_email 0 (Sample.request "GET" "Bearer anon" "") Sample.world
           "alice" "anon"
           [mkAttribute "sub" "456"; mkAttribute "nickname" "Nobody"]);
    try reflexivity.
  - apply sample_caller.
  - apply sample_bearer_anon.
  - intros a [<-|[<-|[]]]; discriminate.
Defined.

Lemma handler_method_not_allowed_witness :
  Sample.run (Sample.request "DELETE" "Bearer tok" "") Sample.world
  = (Returns (plain 405 "HTTP method 'DELETE' not allowed", None), Sample.world).
Proof.
  apply (handler_method_not_allowed 0 Sample.no_times
           (Sample.request "DELETE" "Bearer tok" "") Sample.world);
    vm_compute; discriminate.
Defined.

Lemma connection_failure_error_contracts_witness :
  fst (update 0 Sample.no_times (Sample.request "PUT" "Bearer tok" "{}")
              Sample.world_db_down)
  = Returns (plain 500 "error: failed to connect to AWS RDS: dial tcp: connection refused",
             Some "error: failed to connect to AWS RDS: dial tcp: connection refused")
  /\ fst (read 0 (Sample.request "PUT" "Bearer tok" "{}") Sample.world_db_down)
     = Returns (plain 500 "error: failed to connect to AWS RDS: dial tcp: connection refused",
                None).
Proof.
  destruct (connection_failure_error_contracts 0 Sample.no_times
              (Sample.request "PUT" "Bearer tok" "{}") Sample.world_db_down)
    as [H _].
  apply (H "dial tcp: connection refused"). reflexivity.
Defined.

(** * More of the handler in the sample world *)

Lemma read_answers_200_404_500_witness :
  (StatusCode (plain 500 "could not find user email") = 200
   /\ Headers (plain 500 "could not find user email")
      = {["Content-Type" := "application/json"]})
  \/ ((StatusCode (plain 500 "could not find user email") = 404
       \/ StatusCode (plain 500 "could not find user email") = 500)
      /\ Headers (plain 500 "could not find user email") = ∅).
Proof.
  apply (read_answers_200_404_500 0 (Sample.request "GET" "Bearer anon" "")
           Sample.world _ None).
  vm_compute. reflexivity.
Defined.

Lemma update_answers_200_400_404_500_witness :
  In (StatusCode (plain 400 "invalid request body")) [200; 400; 404; 500]
  /\ Headers (plain 400 "invalid request body") = ∅.
Proof.
  apply (update_answers_200_400_404_500 0 Sample.no_times
           (Sample.request "PUT" "" "not json") Sample.world _ None).
  vm_compute. reflexivity.
Defined.

Lemma missing_username_claim_witness :
  read 0 (Cases.request_without_claim "GET" "Bearer tok" "") Sample.world
  = (Returns (plain 500 "failed to parse username", None), logged CallOpen Sample.world)
  /\ update 0 Sample.no_times (Cases.request_without_claim "GET" "Bearer tok" "")
            Sample.world
     = (Returns (plain 500 "failed to parse username", None),
        logged CallOpen Sample.world).
Proof.
  apply (missing_username_claim 0 Sample.no_times
           (Cases.request_without_claim "GET" "Bearer tok" "") Sample.world
           (mkAuthorizer (<["scope" := AnyString "profile"]> ∅)));
    try reflexivity.
  intros s. vm_compute. discriminate.
Defined.

Lemma read_provider_failure_witness :
  read 0 (Sample.request "GET" "Bearer expired" "") (with_store ∅ None Sample.world)
  = (Returns (plain 500 "NotAuthorizedException: Invalid Access Token", None),
     logged (CallGetUser "expired")
            (logged CallLoadConfig (logged CallOpen (with_store ∅ None Sample.world)))).
Proof.
  apply (read_provider_failure 0 (Sample.request "GET" "Bearer expired" "")
           Sample.world "alice" "expired"); try reflexivity.
  - apply sample_caller.
  - exists "Bearer", []. reflexivity.
Defined.

Lemma read_config_failure_witness :
  read 0 (Sample.request "GET" "" "") Cases.world_no_config
  = (Returns (plain 500 "failed to load shared config file", None),
     logged CallLoadConfig (logged CallOpen Cases.world_no_config)).
Proof.
  apply (read_config_failure 0 (Sample.request "GET" "" "") Cases.world_no_config
           "alice"); try reflexivity.
  apply sample_caller.
Defined.

Lemma update_of_missing_record_witness :
  update 0 Sample.no_times
         (Sample.request "PUT" "" (Bytes.text "{'username':'alice','bio':'x'}"))
         (with_store ∅ None Sample.world)
  = (Returns (plain 404 "user not found", None),
     logged (CallFirst "alice") (logged CallOpen (with_store ∅ None Sample.world))).
Proof.
  apply (update_of_missing_record 0 Sample.no_times _ (with_store ∅ None Sample.world)
           "alice"); try reflexivity.
  apply sample_caller.
Defined.

Lemma update_save_failure_witness :
  fst (update 0 Sample.no_times
              (Sample.request "PUT" "" (Bytes.text "{'bio':'x'}")) Cases.world_read_only)
  = Returns (plain 500 "Error 1290: The MySQL server is running with the --read-only option",
             None)
  /\ users (snd (update 0 Sample.no_times
                        (Sample.request "PUT" "" (Bytes.text "{'bio':'x'}"))
                        Cases.world_read_only))
     = users Cases.world_read_only.
Proof.
  apply (update_save_failure 0 Sample.no_times _ Cases.world_read_only "alice"
           Sample.alice_row
           (fst (Unmarshal Sample.no_times (Bytes.text "{'bio':'x'}")
                           (scan 0 "alice" Sample.alice_row))));
    try reflexivity.
  apply sample_caller.
Defined.


Lemma bio_patch_keeps_username :
  ~ present FUsername (Bytes.text "{'bio':'new bio'}").
Proof.
  intros (ms & k & v & Hp & Hin & Hf).
  vm_compute in Hp. injection Hp as <-.
  destruct Hin as [Hin|[]]. injection Hin as <- <-.
  vm_compute in Hf. discriminate Hf.
Defined.

Lemma read_after_update_witness :
  let patched := fst (Unmarshal Sample.no_times (Bytes.text "{'bio':'new bio'}")
                                (scan 0 "alice" Sample.alice_row)) in
  fst (read 0 (Sample.request "GET" "Bearer tok" "")
            (snd (update 0 Sample.no_times
                         (Sample.request "PUT" "" (Bytes.text "{'bio':'new bio'}"))
                         Sample.world)))
  = Returns (mkResponse 200
               (Json.HTMLEscape
                  (Json.Marshal [("username", "alice");
                                 ("nickname", attribute "nickname" Cases.attributes_of_alice);
                                 ("email", attribute "email" Cases.attributes_of_alice);
                                 ("bio", Bio patched);
                                 ("profilePicture", ProfilePicture patched)]))
               {["Content-Type" := "application/json"]},
             None).
Proof.
  apply (read_after_update 0 Sample.no_times
           (Sample.request "PUT" "" (Bytes.text "{'bio':'new bio'}"))
           (Sample.request "GET" "Bearer tok" "")
           Sample.world "alice" Sample.alice_row "tok" Cases.attributes_of_alice);
    [ reflexivity
    | apply sample_caller
    | reflexivity
    | reflexivity
    | vm_compute; reflexivity
    | apply bio_patch_keeps_username
    | apply sample_caller
    | reflexivity
    | apply sample_bearer
    | reflexivity
    | vm_compute; discriminate ].
Defined.

Lemma update_with_empty_patch_witness :
  exists r',
    fst (update 0 Sample.no_times (Sample.request "PUT" "" "null") Sample.world)
    = Returns (plain 200 "user updated successfully", None)
    /\ users (snd (update 0 Sample.no_times (Sample.request "PUT" "" "null")
                          Sample.world)) !! "alice" = Some r'
    /\ bio r' = bio Sample.alice_row
    /\ profile_picture r' = profile_picture Sample.alice_row
    /\ created_at r' = created_at Sample.alice_row
    /\ updated_at r' = now Sample.world.
Proof.
  apply (update_with_empty_patch 0 Sample.no_times (Sample.request "PUT" "" "null")
           Sample.world "alice" Sample.alice_row); try reflexivity.
  - apply sample_caller.
  - left. vm_compute. reflexivity.
Defined.

Lemma update_refuses_ill_typed_member_witness :
  update 0 Sample.no_times
         (Sample.request "PUT" "" (Bytes.text "{'profilePicture':'new.png','bio':5}"))
         Sample.world
  = (Returns (plain 400 "invalid request body", None),
     logged (CallFirst "alice") (logged CallOpen Sample.world)).
Proof.
  apply (update_refuses_ill_typed_member 0 Sample.no_times _ Sample.world "alice"
           Sample.alice_row
           [("profilePicture", Json.JString "new.png"); ("bio", Json.JNumber "5")]
           "bio" (Json.JNumber "5") FBio); try reflexivity; try discriminate.
  - apply sample_caller.
  - right. left. reflexivity.
Defined.

Lemma read_body_has_no_html_bytes_witness :
  ~ In (Bytes.code "{") [60; 62; 38].
Proof.
  apply (read_body_has_no_html_bytes 0 (Sample.request "GET" "Bearer tok" "")
           Sample.world
           (mkResponse 200 Cases.profile_of_alice
                       {["Content-Type" := "application/json"]})
           None "{").
  - vm_compute. reflexivity.
  - reflexivity.
  - vm_compute. left. reflexivity.
Defined.

Lemma read_body_is_the_marshalled_text_witness :
  exists resp,
    fst (read 0 (Sample.request "GET" "Bearer tok" "") Sample.world)
    = Returns (resp, None)
    /\ Body resp = Json.Marshal [("username", "alice");
                                 ("nickname", attribute "nickname" Cases.attributes_of_alice);
                                 ("email", attribute "email" Cases.attributes_of_alice);
                                 ("bio", bio Sample.alice_row);
                                 ("profilePicture", profile_picture Sample.alice_row)].
Proof.
  apply (read_body_is_the_marshalled_text 0 (Sample.request "GET" "Bearer tok" "")
           Sample.world "alice" "tok" Cases.attributes_of_alice Sample.alice_row);
    try reflexivity.
  - apply sample_caller.
  - apply sample_bearer.
  - vm_compute. discriminate.
Defined.

Lemma read_body_reads_back_witness :
  exists resp ms,
    fst (read 0 (Sample.request "GET" "Bearer tok" "") Sample.world)
    = Returns (resp, None)
    /\ Json.parse (Body resp) = Some (Json.JObject ms)
    /\ map member_string ms
       = [Some ("bio", bio Sample.alice_row);
          Some ("email", attribute "email" Cases.attributes_of_alice);
          Some ("nickname", attribute "nickname" Cases.attributes_of_alice);
          Some ("profilePicture", profile_picture Sample.alice_row);
          Some ("username", "alice")].
Proof.
  apply (read_body_reads_back 0 (Sample.request "GET" "Bearer tok" "")
           Sample.world "alice" "tok" Cases.attributes_of_alice Sample.alice_row);
    try reflexivity; try (vm_compute; reflexivity).
  - apply sample_caller.
  - apply sample_bearer.
  - vm_compute. discriminate.
Defined.

Lemma read_asks_about_the_second_field_witness :
  exists new,
    made new Sample.world
         (snd (read 0 (Sample.request "GET" "Bearer tok and more" "") Sample.world))
    /\ In (CallGetUser "tok") new
    /\ forall t', In (CallGetUser t') new -> t' = "tok".
Proof.
  apply (read_asks_about_the_second_field 0
           (Sample.request "GET" "Bearer tok and more" "") Sample.world
           "alice" "Bearer" "tok" " and more"); try reflexivity.
  - apply sample_caller.
  - vm_compute. intuition discriminate.
  - vm_compute. intuition discriminate.
  - right. exists "and more". reflexivity.
Defined.

Lemma attributes_in_any_order_witness :
  fold_left attribute_step
            [mkAttribute "email" "alice@example.com"; mkAttribute "sub" "123";
             mkAttribute "nickname" "Al"]
            ("", "")
  = fold_left attribute_step Cases.attributes_of_alice ("", "").
Proof.
  apply attributes_in_any_order.
  - apply perm_swap.
  - repeat constructor; vm_compute; intuition discriminate.
Defined.

Lemma last_member_decides_witness :
  field_value FBio
    (fst (Unmarshal Sample.no_times (Bytes.text "{'bio':'first','Bio':'second'}")
                    (scan 0 "alice" Sample.alice_row)))
  = inr (Json.unquote "second").
Proof.
  apply (last_member_decides Sample.no_times
           (Bytes.text "{'bio':'first','Bio':'second'}")
           (scan 0 "alice" Sample.alice_row)
           (fst (Unmarshal Sample.no_times (Bytes.text "{'bio':'first','Bio':'second'}")
                           (scan 0 "alice" Sample.alice_row)))
           [("bio", Json.JString "first")] "Bio" "second" [] FBio);
    [ vm_compute; reflexivity
    | vm_compute; reflexivity
    | reflexivity
    | reflexivity
    | intros k' v' [] ].
Defined.
